(** * Retrieval core of brain-api-ed: date windows, temporal filter, reranking

    Shallow embedding of [src/semantic_search.py] (parsing of metadata
    dates, [search], [filter_by_date_range], [rerank], the convenience
    entry points) and of [resolve_date_window_from_query] with its helpers
    from [src/answer_with_rag.py].

    Modelling conventions.
    - Python's naive [datetime] is a record of its seven fields; the
      proleptic Gregorian calendar helpers of CPython's [datetime] module
      ([_ymd2ord], [_ord2ymd], [weekday]) are transcribed over [Z].
    - A [timedelta] is its total number of microseconds (CPython keeps it
      normalised, so this is a faithful representation).
    - Exceptions are the [Err] case of a small result monad.
    - Scores (Python floats) are rationals [Q]; every score comparison the
      development relies on is far from rounding distance.
    - Library code the program calls is a parameter: [datetime.fromisoformat]
      and [strptime] as used by [_parse_iso] (returning naive datetimes),
      and the FAISS index, the metadata table and the embedding backend. *)

From Stdlib Require Import ZArith Lia List String Ascii Bool.
From Stdlib Require Import QArith Qabs Lqa Sorting.Permutation Sorting.Sorted.
Import ListNotations.
Open Scope Z_scope.

(** ** Python exceptions and the result monad *)

Inductive pyexc : Type :=
| ValueError
| OverflowError
| ZeroDivisionError
| KeyError
| RuntimeError
| TypeError.

Inductive result (A : Type) : Type :=
| Ok (a : A)
| Err (e : pyexc).
Arguments Ok {A} a.
Arguments Err {A} e.

Definition bind {A B} (r : result A) (k : A -> result B) : result B :=
  match r with
  | Ok a => k a
  | Err e => Err e
  end.

Notation "x <- r ;; k" := (bind r (fun x => k))
  (at level 61, r at next level, right associativity).

(** ** The calendar of CPython's [datetime] module *)

Module Cal.

Definition MAXORDINAL : Z := 3652059.

Definition _is_leap (year : Z) : bool :=
  (year mod 4 =? 0) && ((negb (year mod 100 =? 0)) || (year mod 400 =? 0)).

(** [_DAYS_IN_MONTH] and [_DAYS_BEFORE_MONTH], indexed 1..12. *)
Definition _DAYS_IN_MONTH (m : Z) : Z :=
  match m with
  | 1 => 31 | 2 => 28 | 3 => 31 | 4 => 30 | 5 => 31 | 6 => 30
  | 7 => 31 | 8 => 31 | 9 => 30 | 10 => 31 | 11 => 30 | 12 => 31
  | _ => -1
  end.

Definition _DAYS_BEFORE_MONTH (m : Z) : Z :=
  match m with
  | 1 => 0 | 2 => 31 | 3 => 59 | 4 => 90 | 5 => 120 | 6 => 151
  | 7 => 181 | 8 => 212 | 9 => 243 | 10 => 273 | 11 => 304 | 12 => 334
  | _ => -1
  end.

Definition _days_in_month (year month : Z) : Z :=
  if (month =? 2) && _is_leap year then 29 else _DAYS_IN_MONTH month.

Definition _days_before_year (year : Z) : Z :=
  let y := year - 1 in y * 365 + y / 4 - y / 100 + y / 400.

Definition _days_before_month (year month : Z) : Z :=
  _DAYS_BEFORE_MONTH month + (if (2 <? month) && _is_leap year then 1 else 0).

Definition _ymd2ord (year month day : Z) : Z :=
  _days_before_year year + _days_before_month year month + day.

Definition _DI400Y : Z := 146097.
Definition _DI100Y : Z := 36524.
Definition _DI4Y : Z := 1461.

(** The month search at the end of [_ord2ymd]: [n] is the 0-based day
    of the year, the result is [(month, day)]. *)
Definition _ord2ymd_month (n : Z) (leapyear : bool) : Z * Z :=
  let month := Z.shiftr (n + 50) 5 in
  let preceding := _DAYS_BEFORE_MONTH month
                   + (if (2 <? month) && leapyear then 1 else 0) in
  let '(month, preceding) :=
    if preceding >? n then
      (month - 1, preceding - (_DAYS_IN_MONTH (month - 1)
                               + (if (month - 1 =? 2) && leapyear then 1 else 0)))
    else (month, preceding) in
  (month, n - preceding + 1).

(** [_ord2ymd], line by line. *)
Definition _ord2ymd (n0 : Z) : Z * Z * Z :=
  let n := n0 - 1 in
  let n400 := n / _DI400Y in let n := n mod _DI400Y in
  let year := n400 * 400 + 1 in
  let n100 := n / _DI100Y in let n := n mod _DI100Y in
  let n4 := n / _DI4Y in let n := n mod _DI4Y in
  let n1 := n / 365 in let n := n mod 365 in
  let year := year + n100 * 100 + n4 * 4 + n1 in
  if (n1 =? 4) || (n100 =? 4) then (year - 1, 12, 31) else
  let leapyear := (n1 =? 3) && (negb (n4 =? 24) || (n100 =? 3)) in
  let '(month, day) := _ord2ymd_month n leapyear in
  (year, month, day).

Definition wf_date (y m d : Z) : bool :=
  (1 <=? y) && (y <=? 9999) && (1 <=? m) && (m <=? 12)
  && (1 <=? d) && (d <=? _days_in_month y m).

(** ** Calendar facts *)

Lemma div_step (k y : Z) :
  0 < k -> y / k = (y - 1) / k + (if y mod k =? 0 then 1 else 0).
Proof.
  intros Hk.
  pose proof (Z.div_mod y k ltac:(lia)) as Hy.
  pose proof (Z.mod_pos_bound y k Hk) as Hb.
  destruct (Z.eqb_spec (y mod k) 0) as [E|E].
  - rewrite <- (Z.div_unique (y - 1) k (y / k - 1) (k - 1)); nia.
  - rewrite <- (Z.div_unique (y - 1) k (y / k) (y mod k - 1)); nia.
Qed.

Lemma mod_weaken (y a b : Z) :
  0 < a -> 0 < b -> y mod (a * b) = 0 -> y mod a = 0.
Proof.
  intros Ha Hb H.
  pose proof (Z.div_mod y (a * b) ltac:(lia)) as Hy.
  rewrite H, Z.add_0_r in Hy. rewrite Hy.
  replace (a * b * (y / (a * b))) with ((b * (y / (a * b))) * a) by ring.
  apply Z.mod_mul; lia.
Qed.

Definition days_in_year (y : Z) : Z := if _is_leap y then 366 else 365.

Lemma days_before_year_succ (y : Z) :
  _days_before_year (y + 1) = _days_before_year y + days_in_year y.
Proof.
  unfold _days_before_year, days_in_year, _is_leap.
  replace (y + 1 - 1) with y by lia.
  rewrite (div_step 4 y), (div_step 100 y), (div_step 400 y) by lia.
  pose proof (mod_weaken y 100 4) as W1.
  pose proof (mod_weaken y 4 25) as W2.
  simpl in W1, W2.
  destruct (Z.eqb_spec (y mod 4) 0), (Z.eqb_spec (y mod 100) 0),
           (Z.eqb_spec (y mod 400) 0); simpl; lia.
Qed.

Lemma days_before_year_mono (y k : Z) :
  0 <= k -> _days_before_year y + 365 * k <= _days_before_year (y + k).
Proof.
  intros Hk. pattern k. apply natlike_ind; [ | | exact Hk]; cbv beta.
  - replace (y + 0) with y by lia. lia.
  - intros x Hx IH. replace (y + Z.succ x) with (y + x + 1) by lia.
    rewrite days_before_year_succ. unfold days_in_year.
    destruct (_is_leap (y + x)); lia.
Qed.

Lemma days_before_year_400 (y : Z) :
  _days_before_year (y + 400) = _days_before_year y + _DI400Y.
Proof.
  unfold _days_before_year, _DI400Y.
  replace (y + 400 - 1) with ((y - 1) + 100 * 4) by lia.
  rewrite Z.div_add by lia.
  replace ((y - 1) + 100 * 4) with ((y - 1) + 4 * 100) by lia.
  rewrite Z.div_add by lia.
  replace ((y - 1) + 4 * 100) with ((y - 1) + 1 * 400) by lia.
  rewrite Z.div_add by lia.
  lia.
Qed.

(** Within one year: month [m] starts after the months before it. *)
Lemma month_cases (m : Z) :
  1 <= m <= 12 ->
  m = 1 \/ m = 2 \/ m = 3 \/ m = 4 \/ m = 5 \/ m = 6 \/
  m = 7 \/ m = 8 \/ m = 9 \/ m = 10 \/ m = 11 \/ m = 12.
Proof. lia. Qed.

Lemma days_in_month_bounds (y m : Z) :
  1 <= m <= 12 -> 28 <= _days_in_month y m <= 31.
Proof.
  intros Hm. unfold _days_in_month.
  destruct (_is_leap y);
    destruct (month_cases m Hm) as [->|[->|[->|[->|[->|[->|[->|[->|[->|[->|[->| ->]]]]]]]]]]];
    simpl; lia.
Qed.

Lemma month_fits (y m : Z) :
  1 <= m <= 12 ->
  _days_before_month y m + _days_in_month y m <= days_in_year y.
Proof.
  intros Hm. unfold _days_before_month, _days_in_month, days_in_year.
  destruct (_is_leap y);
    destruct (month_cases m Hm) as [->|[->|[->|[->|[->|[->|[->|[->|[->|[->|[->| ->]]]]]]]]]]];
    simpl; lia.
Qed.

Lemma month_order (y m m' : Z) :
  1 <= m -> m < m' -> m' <= 12 ->
  _days_before_month y m + _days_in_month y m <= _days_before_month y m'.
Proof.
  intros H1 H2 H3. unfold _days_before_month, _days_in_month.
  assert (Hm : 1 <= m <= 12) by lia. assert (Hm' : 1 <= m' <= 12) by lia.
  destruct (_is_leap y);
    destruct (month_cases m Hm) as [->|[->|[->|[->|[->|[->|[->|[->|[->|[->|[->| ->]]]]]]]]]]];
    destruct (month_cases m' Hm') as [->|[->|[->|[->|[->|[->|[->|[->|[->|[->|[->| ->]]]]]]]]]]];
    simpl; lia.
Qed.

Lemma days_before_month_nonneg (y m : Z) :
  1 <= m <= 12 -> 0 <= _days_before_month y m.
Proof.
  intros Hm. unfold _days_before_month.
  destruct (_is_leap y);
    destruct (month_cases m Hm) as [->|[->|[->|[->|[->|[->|[->|[->|[->|[->|[->| ->]]]]]]]]]]];
    simpl; lia.
Qed.

(** The ordinal of a valid day lies inside its year. *)
Lemma ymd2ord_in_year (y m d : Z) :
  1 <= m <= 12 -> 1 <= d <= _days_in_month y m ->
  _days_before_year y < _ymd2ord y m d <= _days_before_year (y + 1).
Proof.
  intros Hm Hd. unfold _ymd2ord. rewrite days_before_year_succ.
  pose proof (month_fits y m Hm). pose proof (days_before_month_nonneg y m Hm).
  lia.
Qed.

(** The decomposition of an ordinal used by [_ord2ymd], read backwards. *)
Lemma days_before_year_decomp (a b c e : Z) :
  0 <= b <= 3 -> 0 <= c <= 24 -> 0 <= e <= 3 ->
  _days_before_year (400 * a + 100 * b + 4 * c + e + 1)
  = 146097 * a + 36524 * b + 1461 * c + 365 * e.
Proof.
  intros Hb Hc He. unfold _days_before_year.
  set (Y := 400 * a + 100 * b + 4 * c + e + 1 - 1).
  pose proof (Z.div_mod Y 4 ltac:(lia)). pose proof (Z.mod_pos_bound Y 4 ltac:(lia)).
  pose proof (Z.div_mod Y 100 ltac:(lia)). pose proof (Z.mod_pos_bound Y 100 ltac:(lia)).
  pose proof (Z.div_mod Y 400 ltac:(lia)). pose proof (Z.mod_pos_bound Y 400 ltac:(lia)).
  subst Y. lia.
Qed.

Lemma is_leap_decomp (a b c e : Z) :
  0 <= b <= 3 -> 0 <= c <= 24 -> 0 <= e <= 3 ->
  _is_leap (400 * a + 100 * b + 4 * c + e + 1)
  = (e =? 3) && (negb (c =? 24) || (b =? 3)).
Proof.
  intros Hb Hc He. unfold _is_leap.
  set (Y := 400 * a + 100 * b + 4 * c + e + 1).
  pose proof (Z.div_mod Y 4 ltac:(lia)). pose proof (Z.mod_pos_bound Y 4 ltac:(lia)).
  pose proof (Z.div_mod Y 100 ltac:(lia)). pose proof (Z.mod_pos_bound Y 100 ltac:(lia)).
  pose proof (Z.div_mod Y 400 ltac:(lia)). pose proof (Z.mod_pos_bound Y 400 ltac:(lia)).
  subst Y.
  destruct (Z.eqb_spec e 3), (Z.eqb_spec c 24), (Z.eqb_spec b 3);
  destruct (Z.eqb_spec ((400 * a + 100 * b + 4 * c + e + 1) mod 4) 0),
           (Z.eqb_spec ((400 * a + 100 * b + 4 * c + e + 1) mod 100) 0),
           (Z.eqb_spec ((400 * a + 100 * b + 4 * c + e + 1) mod 400) 0);
  simpl; try reflexivity; exfalso; lia.
Qed.

(** The month search, checked on every day of a year. *)
Definition month_step_ok (n : Z) (leapyear : bool) : bool :=
  let '(m, d) := _ord2ymd_month n leapyear in
  (1 <=? m) && (m <=? 12)
  && (_DAYS_BEFORE_MONTH m + (if (2 <? m) && leapyear then 1 else 0) + d =? n + 1)
  && (1 <=? d) && (d <=? (if (m =? 2) && leapyear then 29 else _DAYS_IN_MONTH m)).

Fixpoint check_days (n : Z) (k : nat) : bool :=
  match k with
  | O => true
  | S k' => month_step_ok n true && month_step_ok n false && check_days (n + 1) k'
  end.

Lemma check_days_spec (k : nat) : forall n0 n lp,
  check_days n0 k = true -> n0 <= n < n0 + Z.of_nat k -> month_step_ok n lp = true.
Proof.
  induction k as [|k IH]; intros n0 n lp H Hn; simpl in *.
  - lia.
  - apply andb_prop in H as [H H3]. apply andb_prop in H as [H1 H2].
    destruct (Z.eq_dec n n0) as [->|Hne].
    + destruct lp; assumption.
    + apply (IH (n0 + 1)); [assumption | lia].
Qed.

Lemma check_days_year : check_days 0 365 = true.
Proof. vm_compute. reflexivity. Qed.

Lemma ord2ymd_month_correct (n : Z) (lp : bool) (m d : Z) :
  0 <= n < 365 -> _ord2ymd_month n lp = (m, d) ->
  1 <= m <= 12
  /\ _DAYS_BEFORE_MONTH m + (if (2 <? m) && lp then 1 else 0) + d = n + 1
  /\ 1 <= d <= (if (m =? 2) && lp then 29 else _DAYS_IN_MONTH m).
Proof.
  intros Hn Hmd.
  pose proof (check_days_spec 365 0 n lp check_days_year ltac:(simpl; lia)) as H.
  unfold month_step_ok in H. rewrite Hmd in H.
  repeat rewrite andb_true_iff in H.
  destruct H as [[[[H1 H2] H3] H4] H5].
  apply Z.leb_le in H1, H2, H4, H5. apply Z.eqb_eq in H3.
  lia.
Qed.

(** [_ord2ymd] inverts [_ymd2ord] and produces a valid month and day. *)
Lemma ord2ymd_correct (n0 y m d : Z) :
  _ord2ymd n0 = (y, m, d) ->
  _ymd2ord y m d = n0 /\ 1 <= m <= 12 /\ 1 <= d <= _days_in_month y m.
Proof.
  unfold _ord2ymd, _DI400Y, _DI100Y, _DI4Y. cbv zeta.
  set (r := (n0 - 1) mod 146097). set (a := (n0 - 1) / 146097).
  set (r1 := r mod 36524). set (b := r / 36524).
  set (r2 := r1 mod 1461). set (c := r1 / 1461).
  set (r3 := r2 mod 365). set (e := r2 / 365).
  pose proof (Z.div_mod (n0 - 1) 146097 ltac:(lia)) as E0.
  pose proof (Z.mod_pos_bound (n0 - 1) 146097 ltac:(lia)) as B0.
  pose proof (Z.div_mod r 36524 ltac:(lia)) as E1.
  pose proof (Z.mod_pos_bound r 36524 ltac:(lia)) as B1.
  pose proof (Z.div_mod r1 1461 ltac:(lia)) as E2.
  pose proof (Z.mod_pos_bound r1 1461 ltac:(lia)) as B2.
  pose proof (Z.div_mod r2 365 ltac:(lia)) as E3.
  pose proof (Z.mod_pos_bound r2 365 ltac:(lia)) as B3.
  fold r a in E0, B0. fold r1 b in E1, B1. fold r2 c in E2, B2. fold r3 e in E3, B3.
  assert (Hb : 0 <= b <= 4) by lia.
  assert (Hc : 0 <= c <= 24) by lia.
  assert (He : 0 <= e <= 4) by lia.
  destruct ((e =? 4) || (b =? 4)) eqn:Sp.
  - intros Heq. injection Heq as <- <- <-.
    unfold _days_in_month, _ymd2ord, _days_before_month.
    destruct (Z.eqb_spec b 4) as [Hb4|Hb4].
    + replace (a * 400 + 1 + b * 100 + c * 4 + e - 1)
        with (400 * a + 100 * 3 + 4 * 24 + 3 + 1) by lia.
      rewrite days_before_year_decomp, is_leap_decomp by lia.
      cbn -[Z.mul Z.add]. split; lia.
    + assert (e = 4) by (destruct (Z.eqb_spec e 4); [assumption | discriminate]).
      replace (a * 400 + 1 + b * 100 + c * 4 + e - 1)
        with (400 * a + 100 * b + 4 * c + 3 + 1) by lia.
      rewrite days_before_year_decomp, is_leap_decomp by lia.
      destruct (Z.eqb_spec c 24); [lia|]. cbn -[Z.mul Z.add]. split; lia.
  - apply orb_false_iff in Sp as [S1 S2].
    apply Z.eqb_neq in S1, S2.
    replace (a * 400 + 1 + b * 100 + c * 4 + e)
      with (400 * a + 100 * b + 4 * c + e + 1) by lia.
    pose proof (days_before_year_decomp a b c e ltac:(lia) ltac:(lia) ltac:(lia)) as HdY.
    rewrite <- (is_leap_decomp a b c e) by lia.
    remember (400 * a + 100 * b + 4 * c + e + 1) as Y eqn:HY.
    destruct (_ord2ymd_month r3 _) as [m' d'] eqn:Hmd.
    intros Heq. injection Heq as <- <- <-.
    apply ord2ymd_month_correct in Hmd as (Hm & Hsum & Hd); [|lia].
    unfold _ymd2ord, _days_before_month, _days_in_month.
    rewrite HdY.
    split; [lia | split; [lia |]].
    destruct (Z.eqb_spec m' 2); cbn -[Z.mul Z.add] in *; lia.
Qed.

End Cal.

(** ** Naive [datetime] and [timedelta] *)

Module DT.
Import Cal.

Record datetime : Type := mkdatetime {
  year : Z; month : Z; day : Z;
  hour : Z; minute : Z; second : Z; microsecond : Z }.

(** The [datetime(...)] constructor: it validates every field. *)
Definition datetime_new (y m d h mi s us : Z) : result datetime :=
  if wf_date y m d && (0 <=? h) && (h <? 24) && (0 <=? mi) && (mi <? 60)
     && (0 <=? s) && (s <? 60) && (0 <=? us) && (us <? 1000000)
  then Ok (mkdatetime y m d h mi s us) else Err ValueError.

Definition wf (x : datetime) : bool :=
  match datetime_new x.(year) x.(month) x.(day) x.(hour) x.(minute)
                     x.(second) x.(microsecond) with
  | Ok _ => true | Err _ => false
  end.

Definition toordinal (x : datetime) : Z := _ymd2ord x.(year) x.(month) x.(day).

(** [date.weekday]: Monday is 0 and Sunday is 6. *)
Definition weekday (x : datetime) : Z := (toordinal x + 6) mod 7.

(** [datetime.max]. *)
Definition datetime_max : datetime := mkdatetime 9999 12 31 23 59 59 999999.

(** Comparison of naive datetimes: lexicographic on the field tuple. *)
Definition lexc (c r : comparison) : comparison :=
  match c with Eq => r | _ => c end.

Definition dt_cmp (x y : datetime) : comparison :=
  lexc (Z.compare x.(year) y.(year))
  (lexc (Z.compare x.(month) y.(month))
  (lexc (Z.compare x.(day) y.(day))
  (lexc (Z.compare x.(hour) y.(hour))
  (lexc (Z.compare x.(minute) y.(minute))
  (lexc (Z.compare x.(second) y.(second))
        (Z.compare x.(microsecond) y.(microsecond))))))).

Definition dt_le (x y : datetime) : bool :=
  match dt_cmp x y with Gt => false | _ => true end.
Definition dt_lt (x y : datetime) : bool :=
  match dt_cmp x y with Lt => true | _ => false end.

(** A [timedelta], as its total number of microseconds. *)
Definition US_PER_DAY : Z := 86400000000.
Definition timedelta (days hours minutes seconds : Z) : Z :=
  (((days * 24 + hours) * 60 + minutes) * 60 + seconds) * 1000000.

(** The instant as microseconds since 0001-01-00 (day 0); this is the
    [timedelta] that [datetime.__add__] builds from [self]. *)
Definition key (x : datetime) : Z :=
  toordinal x * US_PER_DAY
  + ((x.(hour) * 3600 + x.(minute) * 60 + x.(second)) * 1000000
     + x.(microsecond)).

(** [datetime.__add__] with a [timedelta] (and [__sub__], which adds the
    negated delta). *)
Definition dt_add (x : datetime) (delta : Z) : result datetime :=
  let total := key x + delta in
  let days := total / US_PER_DAY in
  let rem := total mod US_PER_DAY in
  let secs := rem / 1000000 in
  let us := rem mod 1000000 in
  let hour := secs / 3600 in let r := secs mod 3600 in
  let minute := r / 60 in let second := r mod 60 in
  if (0 <? days) && (days <=? MAXORDINAL) then
    let '(y, m, d) := _ord2ymd days in
    Ok (mkdatetime y m d hour minute second us)
  else Err OverflowError.

Definition dt_sub (x : datetime) (delta : Z) : result datetime :=
  dt_add x (- delta).

(** [datetime.replace] for the fields the code replaces; the constructor
    checks the result. *)
Definition replace_time (x : datetime) (h mi s us : Z) : result datetime :=
  datetime_new x.(year) x.(month) x.(day) h mi s us.

Definition replace_date (x : datetime) (y m d : Z) : result datetime :=
  datetime_new y m d x.(hour) x.(minute) x.(second) x.(microsecond).

(** *** Ordering and arithmetic of datetimes *)

Lemma lexc_assoc (a b c : comparison) : lexc (lexc a b) c = lexc a (lexc b c).
Proof. destruct a, b; reflexivity. Qed.

Lemma lexc_combine (a a' t t' B : Z) :
  0 <= t < B -> 0 <= t' < B ->
  lexc (Z.compare a a') (Z.compare t t') = Z.compare (a * B + t) (a' * B + t').
Proof.
  intros Ht Ht'. unfold lexc.
  destruct (Z.compare_spec a a') as [->|H|H].
  - destruct (Z.compare_spec t t'), (Z.compare_spec (a' * B + t) (a' * B + t'));
      try reflexivity; lia.
  - symmetry. apply Z.compare_lt_iff. nia.
  - symmetry. apply Z.compare_gt_iff. nia.
Qed.

Lemma wf_spec (x : datetime) :
  wf x = true ->
  1 <= x.(year) <= 9999 /\ 1 <= x.(month) <= 12
  /\ 1 <= x.(day) <= _days_in_month x.(year) x.(month)
  /\ 0 <= x.(hour) < 24 /\ 0 <= x.(minute) < 60 /\ 0 <= x.(second) < 60
  /\ 0 <= x.(microsecond) < 1000000.
Proof.
  unfold wf, datetime_new, wf_date.
  destruct (_ && _) eqn:E; [|discriminate]. intros _.
  repeat rewrite andb_true_iff in E.
  repeat match goal with
         | H : _ /\ _ |- _ => destruct H
         | H : (_ <=? _) = true |- _ => apply Z.leb_le in H
         | H : (_ <? _) = true |- _ => apply Z.ltb_lt in H
         end.
  lia.
Qed.

Lemma wf_intro (x : datetime) :
  1 <= x.(year) <= 9999 -> 1 <= x.(month) <= 12 ->
  1 <= x.(day) <= _days_in_month x.(year) x.(month) ->
  0 <= x.(hour) < 24 -> 0 <= x.(minute) < 60 -> 0 <= x.(second) < 60 ->
  0 <= x.(microsecond) < 1000000 -> wf x = true.
Proof.
  intros. unfold wf, datetime_new, wf_date.
  repeat match goal with
         | |- context [?a <=? ?b] => replace (a <=? b) with true
             by (symmetry; apply Z.leb_le; lia)
         | |- context [?a <? ?b] => replace (a <? b) with true
             by (symmetry; apply Z.ltb_lt; lia)
         end.
  reflexivity.
Qed.

(** Lexicographic order on valid dates is the order of their ordinals. *)
Lemma ymd2ord_lt_year (y m d y' m' d' : Z) :
  1 <= m <= 12 -> 1 <= d <= _days_in_month y m ->
  1 <= m' <= 12 -> 1 <= d' <= _days_in_month y' m' ->
  y < y' -> _ymd2ord y m d < _ymd2ord y' m' d'.
Proof.
  intros Hm Hd Hm' Hd' Hy.
  pose proof (ymd2ord_in_year y m d Hm Hd).
  pose proof (ymd2ord_in_year y' m' d' Hm' Hd').
  pose proof (days_before_year_mono (y + 1) (y' - (y + 1)) ltac:(lia)).
  replace (y + 1 + (y' - (y + 1))) with y' in * by lia.
  lia.
Qed.

Lemma ymd2ord_lt_month (y m d m' d' : Z) :
  1 <= m <= 12 -> 1 <= d <= _days_in_month y m ->
  1 <= m' <= 12 -> 1 <= d' <= _days_in_month y m' ->
  m < m' -> _ymd2ord y m d < _ymd2ord y m' d'.
Proof.
  intros Hm Hd Hm' Hd' Hlt. unfold _ymd2ord.
  pose proof (month_order y m m' ltac:(lia) Hlt ltac:(lia)). lia.
Qed.

Lemma date_cmp_ord (y m d y' m' d' : Z) :
  1 <= m <= 12 -> 1 <= d <= _days_in_month y m ->
  1 <= m' <= 12 -> 1 <= d' <= _days_in_month y' m' ->
  lexc (Z.compare y y') (lexc (Z.compare m m') (Z.compare d d'))
  = Z.compare (_ymd2ord y m d) (_ymd2ord y' m' d').
Proof.
  intros Hm Hd Hm' Hd'. unfold lexc.
  destruct (Z.compare_spec y y') as [<-|Hy|Hy].
  - destruct (Z.compare_spec m m') as [<-|Hmm|Hmm].
    + unfold _ymd2ord.
      destruct (Z.compare_spec d d'), (Z.compare_spec
        (_days_before_year y + _days_before_month y m + d)
        (_days_before_year y + _days_before_month y m + d'));
        try reflexivity; lia.
    + symmetry. apply Z.compare_lt_iff. apply ymd2ord_lt_month; assumption.
    + symmetry. apply Z.compare_gt_iff. apply ymd2ord_lt_month; assumption.
  - symmetry. apply Z.compare_lt_iff. apply ymd2ord_lt_year; assumption.
  - symmetry. apply Z.compare_gt_iff. apply ymd2ord_lt_year; assumption.
Qed.

Definition time_of_day (x : datetime) : Z :=
  (x.(hour) * 3600 + x.(minute) * 60 + x.(second)) * 1000000 + x.(microsecond).

Lemma time_of_day_bounds (x : datetime) :
  wf x = true -> 0 <= time_of_day x < US_PER_DAY.
Proof.
  intros W. apply wf_spec in W. unfold time_of_day, US_PER_DAY. lia.
Qed.

Lemma key_time (x : datetime) : key x = toordinal x * US_PER_DAY + time_of_day x.
Proof. reflexivity. Qed.

Lemma dt_cmp_key (x y : datetime) :
  wf x = true -> wf y = true -> dt_cmp x y = Z.compare (key x) (key y).
Proof.
  intros Wx Wy.
  pose proof (time_of_day_bounds x Wx). pose proof (time_of_day_bounds y Wy).
  apply wf_spec in Wx, Wy. unfold dt_cmp.
  rewrite <- (lexc_assoc (Z.compare (month x) (month y))).
  rewrite <- (lexc_assoc (Z.compare (year x) (year y))).
  rewrite date_cmp_ord by lia.
  rewrite <- (lexc_assoc (Z.compare (hour x) (hour y))).
  rewrite (lexc_combine (hour x) (hour y) (minute x) (minute y) 60) by lia.
  rewrite <- (lexc_assoc (Z.compare (hour x * 60 + minute x) _)).
  rewrite (lexc_combine _ _ (second x) (second y) 60) by lia.
  rewrite (lexc_combine _ _ (microsecond x) (microsecond y) 1000000) by lia.
  rewrite (lexc_combine _ _ _ _ US_PER_DAY) by (unfold US_PER_DAY in *; unfold time_of_day in *; nia).
  rewrite !key_time. unfold time_of_day, toordinal.
  f_equal; ring.
Qed.

Lemma dt_le_key (x y : datetime) :
  wf x = true -> wf y = true -> dt_le x y = (key x <=? key y).
Proof.
  intros Wx Wy. unfold dt_le. rewrite dt_cmp_key by assumption.
  destruct (Z.compare_spec (key x) (key y)) as [E|E|E];
    symmetry; [apply Z.leb_le | apply Z.leb_le | apply Z.leb_gt]; lia.
Qed.

Lemma ord2ymd_year_bounds (n y m d : Z) :
  1 <= n <= MAXORDINAL -> _ord2ymd n = (y, m, d) -> 1 <= y <= 9999.
Proof.
  intros Hn H. apply ord2ymd_correct in H as (Hord & Hm & Hd).
  pose proof (ymd2ord_in_year y m d Hm Hd) as Hin. rewrite Hord in Hin.
  unfold MAXORDINAL in Hn. split.
  - destruct (Z_lt_le_dec y 1) as [Hy|Hy]; [|lia].
    pose proof (days_before_year_mono (y + 1) (1 - (y + 1)) ltac:(lia)) as M.
    replace (y + 1 + (1 - (y + 1))) with 1 in M by lia.
    change (_days_before_year 1) with 0 in M. lia.
  - destruct (Z_lt_le_dec 9999 y) as [Hy|Hy]; [|lia].
    pose proof (days_before_year_mono 10000 (y - 10000) ltac:(lia)) as M.
    replace (10000 + (y - 10000)) with y in M by lia.
    change (_days_before_year 10000) with 3652059 in M. lia.
Qed.

(** [datetime + timedelta] succeeds exactly inside the ordinal range, and
    then moves the instant by the delta. *)
Lemma dt_add_spec (x : datetime) (delta : Z) :
  1 <= (key x + delta) / US_PER_DAY <= MAXORDINAL ->
  exists z, dt_add x delta = Ok z /\ wf z = true /\ key z = key x + delta.
Proof.
  intros Hr. unfold dt_add. cbv zeta.
  set (t := key x + delta) in *.
  replace ((0 <? t / US_PER_DAY) && (t / US_PER_DAY <=? MAXORDINAL)) with true
    by (symmetry; apply andb_true_iff; split; [apply Z.ltb_lt | apply Z.leb_le]; lia).
  destruct (_ord2ymd (t / US_PER_DAY)) as [[y m] d] eqn:E.
  pose proof (ord2ymd_year_bounds _ _ _ _ Hr E) as Hy.
  apply ord2ymd_correct in E as (Hord & Hm & Hd).
  eexists. split; [reflexivity|].
  unfold US_PER_DAY in *.
  pose proof (Z.div_mod t 86400000000 ltac:(lia)).
  pose proof (Z.mod_pos_bound t 86400000000 ltac:(lia)).
  set (rm := t mod 86400000000) in *.
  pose proof (Z.div_mod rm 1000000 ltac:(lia)).
  pose proof (Z.mod_pos_bound rm 1000000 ltac:(lia)).
  set (sc := rm / 1000000) in *.
  assert (0 <= sc < 86400) by (subst sc; split;
    [apply Z.div_pos | apply Z.div_lt_upper_bound]; lia).
  pose proof (Z.div_mod sc 3600 ltac:(lia)).
  pose proof (Z.mod_pos_bound sc 3600 ltac:(lia)).
  pose proof (Z.div_mod (sc mod 3600) 60 ltac:(lia)).
  pose proof (Z.mod_pos_bound (sc mod 3600) 60 ltac:(lia)).
  assert (0 <= sc / 3600 < 24) by (split;
    [apply Z.div_pos | apply Z.div_lt_upper_bound]; lia).
  assert (0 <= sc mod 3600 / 60 < 60) by (split;
    [apply Z.div_pos | apply Z.div_lt_upper_bound]; lia).
  split.
  - apply wf_intro; simpl; lia.
  - unfold key, toordinal, US_PER_DAY. simpl. rewrite Hord. lia.
Qed.

Lemma toordinal_key (x : datetime) :
  wf x = true -> toordinal x = key x / US_PER_DAY.
Proof.
  intros W. pose proof (time_of_day_bounds x W). rewrite key_time.
  apply Z.div_unique with (time_of_day x); [left | unfold US_PER_DAY in *]; lia.
Qed.

Lemma dt_add_inv (x z : datetime) (delta : Z) :
  dt_add x delta = Ok z ->
  wf z = true /\ key z = key x + delta
  /\ 1 <= (key x + delta) / US_PER_DAY <= MAXORDINAL.
Proof.
  intros H.
  assert (Hr : 1 <= (key x + delta) / US_PER_DAY <= MAXORDINAL).
  { unfold dt_add in H. cbv zeta in H.
    destruct ((0 <? (key x + delta) / US_PER_DAY)
              && ((key x + delta) / US_PER_DAY <=? MAXORDINAL)) eqn:C;
      [|discriminate].
    apply andb_true_iff in C as [C1 C2].
    apply Z.ltb_lt in C1. apply Z.leb_le in C2. lia. }
  destruct (dt_add_spec x delta Hr) as (z' & E & W & K).
  rewrite E in H. injection H as <-. auto.
Qed.

Lemma datetime_new_inv (y m d h mi s us : Z) (x : datetime) :
  datetime_new y m d h mi s us = Ok x ->
  x = mkdatetime y m d h mi s us /\ wf x = true.
Proof.
  unfold datetime_new. intros H.
  destruct (_ && _) eqn:E; [|discriminate].
  injection H as <-. split; [reflexivity|].
  unfold wf, datetime_new. simpl. rewrite E. reflexivity.
Qed.

End DT.

(** ** [answer_with_rag.resolve_date_window_from_query] *)

Module Resolve.
Import Cal DT.

(** *** Characters and the regular-expression pieces the resolver uses
    (ASCII text: [\w] is [[A-Za-z0-9_]], [\s] is [str.isspace]). *)

Definition code (c : ascii) : Z := Z.of_N (N_of_ascii c).

Definition is_digit (c : ascii) : bool := (48 <=? code c) && (code c <=? 57).
Definition is_upper (c : ascii) : bool := (65 <=? code c) && (code c <=? 90).
Definition is_lower (c : ascii) : bool := (97 <=? code c) && (code c <=? 122).
Definition is_word_char (c : ascii) : bool :=
  is_digit c || is_upper c || is_lower c || Ascii.eqb c "_"%char.
Definition is_space (c : ascii) : bool :=
  ((9 <=? code c) && (code c <=? 13)) || ((28 <=? code c) && (code c <=? 32)).
Definition digit_value (c : ascii) : Z := code c - 48.

(** [str.lower] on ASCII text. *)
Definition lower_char (c : ascii) : ascii :=
  if is_upper c then ascii_of_N (N_of_ascii c + 32) else c.
Definition lower (s : list ascii) : list ascii := map lower_char s.

Fixpoint strip_prefix (p l : list ascii) : option (list ascii) :=
  match p, l with
  | [], _ => Some l
  | c :: p', d :: l' => if Ascii.eqb c d then strip_prefix p' l' else None
  | _ :: _, [] => None
  end.

(** Python's [needle in hay] on strings. *)
Fixpoint contains (needle hay : list ascii) : bool :=
  match strip_prefix needle hay with
  | Some _ => true
  | None => match hay with [] => false | _ :: t => contains needle t end
  end.

Definition lit (s : string) : list ascii := list_ascii_of_string s.

(** [\b] before a word character, given the character before it. *)
Definition boundary_before (prev : option ascii) : bool :=
  match prev with None => true | Some c => negb (is_word_char c) end.
(** [\b] after a word character, given the text after it. *)
Definition boundary_after (rest : list ascii) : bool :=
  match rest with [] => true | c :: _ => negb (is_word_char c) end.

Fixpoint skip_spaces (l : list ascii) : list ascii :=
  match l with c :: t => if is_space c then skip_spaces t else l | [] => [] end.

(** [\s+] *)
Definition spaces1 (l : list ascii) : option (list ascii) :=
  match l with c :: t => if is_space c then Some (skip_spaces t) else None | [] => None end.

(** [\d{n}], returning the digits read. *)
Fixpoint digits (n : nat) (l : list ascii) : option (list ascii * list ascii) :=
  match n with
  | O => Some ([], l)
  | S n' => match l with
            | c :: t => if is_digit c then
                          match digits n' t with
                          | Some (ds, r) => Some (c :: ds, r)
                          | None => None
                          end
                        else None
            | [] => None
            end
  end.

Definition int_of_digits (ds : list ascii) : Z :=
  fold_left (fun acc c => acc * 10 + digit_value c) ds 0.

(** [20\d{2}], returning [int] of the four digits. *)
Definition match_20dd (l : list ascii) : option (Z * list ascii) :=
  match strip_prefix (lit "20") l with
  | Some l' => match digits 2 l' with
               | Some (ds, r) => Some (int_of_digits ("2"%char :: "0"%char :: ds), r)
               | None => None
               end
  | None => None
  end.

(** [re.search]: the leftmost position where [f] matches, [f] starting
    with [\b] before a word character. *)
Fixpoint search_from {A} (f : list ascii -> option A) (prev : option ascii)
    (l : list ascii) : option A :=
  match (if boundary_before prev then f l else None) with
  | Some a => Some a
  | None => match l with [] => None | c :: t => search_from f (Some c) t end
  end.

Definition re_search {A} (f : list ascii -> option A) (l : list ascii) : option A :=
  search_from f None l.

Definition MONTHS : list string :=
  ["january"; "february"; "march"; "april"; "may"; "june"; "july";
   "august"; "september"; "october"; "november"; "december"]%string.

(** [\b{_MONTHS}\s+20\d{2}\b] at one position: the month number
    ([index + 1]) and [int] of the year. *)
Fixpoint month_alt (names : list string) (i : Z) (l : list ascii) : option (Z * Z) :=
  match names with
  | [] => None
  | nm :: rest =>
      match strip_prefix (lit nm) l with
      | Some l1 =>
          match spaces1 l1 with
          | Some l2 => match match_20dd l2 with
                       | Some (y, l3) => if boundary_after l3 then Some (i + 1, y)
                                         else month_alt rest (i + 1) l
                       | None => month_alt rest (i + 1) l
                       end
          | None => month_alt rest (i + 1) l
          end
      | None => month_alt rest (i + 1) l
      end
  end.

Definition month_year_at (l : list ascii) : option (Z * Z) := month_alt MONTHS 0 l.

(** The quarter pattern [\bq([1-4]) \s* (?:[-/ ]? \s* )? (20\d{2})\b] (spaces added here) at one position. *)
Definition quarter_at (l : list ascii) : option (Z * Z) :=
  match l with
  | q :: d :: l1 =>
      if Ascii.eqb q "q"%char && is_digit d && (1 <=? digit_value d)
         && (digit_value d <=? 4) then
        let l2 := skip_spaces l1 in
        let l3 := match l2 with
                  | c :: t => if Ascii.eqb c "-"%char || Ascii.eqb c "/"%char
                              then skip_spaces t else l2
                  | [] => l2
                  end in
        match match_20dd l3 with
        | Some (y, l4) => if boundary_after l4 then Some (digit_value d, y) else None
        | None => None
        end
      else None
  | _ => None
  end.

(** [\d{4}-\d{2}-\d{2}], returning the matched text. *)
Definition iso_date_text (l : list ascii) : option (list ascii * list ascii) :=
  match digits 4 l with
  | Some (y, l1) =>
      match strip_prefix (lit "-") l1 with
      | Some l2 =>
          match digits 2 l2 with
          | Some (m, l3) =>
              match strip_prefix (lit "-") l3 with
              | Some l4 =>
                  match digits 2 l4 with
                  | Some (d, l5) => Some (y ++ "-"%char :: m ++ "-"%char :: d, l5)
                  | None => None
                  end
              | None => None
              end
          | None => None
          end
      | None => None
      end
  | None => None
  end.

(** [\bfrom\s+(\d{4}-\d{2}-\d{2})\s+to\s+(\d{4}-\d{2}-\d{2})\b] at one
    position: the two groups. *)
Definition from_to_at (l : list ascii) : option (list ascii * list ascii) :=
  match strip_prefix (lit "from") l with
  | Some l1 =>
      match spaces1 l1 with
      | Some l2 =>
          match iso_date_text l2 with
          | Some (g1, l3) =>
              match spaces1 l3 with
              | Some l4 =>
                  match strip_prefix (lit "to") l4 with
                  | Some l5 =>
                      match spaces1 l5 with
                      | Some l6 =>
                          match iso_date_text l6 with
                          | Some (g2, l7) =>
                              if boundary_after l7 then Some (g1, g2) else None
                          | None => None
                          end
                      | None => None
                      end
                  | None => None
                  end
              | None => None
              end
          | None => None
          end
      | None => None
      end
  | None => None
  end.

(** [datetime.fromisoformat] on the [YYYY-MM-DD] text the pattern above
    lets through: the fields go through the [datetime] constructor, which
    raises [ValueError] on an out-of-range month or day (or year 0). *)
Definition fromisoformat_date (s : list ascii) : result datetime :=
  match s with
  | [y1; y2; y3; y4; h1; m1; m2; h2; d1; d2] =>
      if forallb is_digit [y1; y2; y3; y4; m1; m2; d1; d2]
         && Ascii.eqb h1 "-"%char && Ascii.eqb h2 "-"%char
      then datetime_new (int_of_digits [y1; y2; y3; y4]) (int_of_digits [m1; m2])
                        (int_of_digits [d1; d2]) 0 0 0 0
      else Err ValueError
  | _ => Err ValueError
  end.

(** *** The bounds helpers *)

Definition _week_bounds (dt : datetime) : result (datetime * datetime) :=
  start <- dt_sub dt (timedelta (weekday dt) 0 0 0) ;;
  end_ <- dt_add start (timedelta 6 23 59 59) ;;
  Ok (start, end_).

Definition _month_bounds (dt : datetime) : result (datetime * datetime) :=
  start <- datetime_new dt.(year) dt.(month) 1 0 0 0 0 ;;
  end_ <- (if start.(month) =? 12 then
             x <- replace_date start (start.(year) + 1) 1 1 ;;
             dt_sub x (timedelta 0 0 0 1)
           else
             x <- replace_date start start.(year) (start.(month) + 1) 1 ;;
             dt_sub x (timedelta 0 0 0 1)) ;;
  Ok (start, end_).

(** The dict [starts = {1: (1, 1), 2: (4, 1), 3: (7, 1), 4: (10, 1)}]. *)
Definition starts (q : Z) : result (Z * Z) :=
  match q with
  | 1 => Ok (1, 1) | 2 => Ok (4, 1) | 3 => Ok (7, 1) | 4 => Ok (10, 1)
  | _ => Err KeyError
  end.

Definition _quarter_bounds (q year : Z) : result (datetime * datetime) :=
  smd <- starts q ;;
  let '(sm, sd) := smd in
  start <- datetime_new year sm sd 0 0 0 0 ;;
  end_ <- (if q <? 4 then
             emd <- starts (q + 1) ;;
             let '(em, ed) := emd in
             x <- datetime_new year em ed 0 0 0 0 ;;
             dt_sub x (timedelta 0 0 0 1)
           else datetime_new year 12 31 23 59 59 0) ;;
  Ok (start, end_).

(** *** The resolver; [now] is the value of [_today()]. *)

Definition day_window (dt : datetime) : result (option (datetime * datetime)) :=
  s <- replace_time dt 0 0 0 0 ;;
  e <- replace_time dt 23 59 59 0 ;;
  Ok (Some (s, e)).

Definition resolve_date_window_from_query (q : string) (now : datetime)
    : result (option (datetime * datetime)) :=
  let qlow := lower (list_ascii_of_string q) in
  if contains (lit "today") qlow then day_window now
  else if contains (lit "yesterday") qlow then
    dt <- dt_sub now (timedelta 1 0 0 0) ;; day_window dt
  else if contains (lit "this week") qlow then
    w <- _week_bounds now ;; Ok (Some w)
  else if contains (lit "last week") qlow then
    last <- dt_sub now (timedelta 7 0 0 0) ;;
    w <- _week_bounds last ;; Ok (Some w)
  else if contains (lit "this month") qlow then
    w <- _month_bounds now ;; Ok (Some w)
  else if contains (lit "last month") qlow then
    d1 <- replace_date now now.(year) now.(month) 1 ;;
    d2 <- dt_sub d1 (timedelta 1 0 0 0) ;;
    last_month <- replace_time d2 0 0 0 0 ;;
    w <- _month_bounds last_month ;; Ok (Some w)
  else match re_search month_year_at qlow with
  | Some (month_num, year) =>
      start <- datetime_new year month_num 1 0 0 0 0 ;;
      end_ <- (if month_num =? 12 then
                 x <- datetime_new (year + 1) 1 1 0 0 0 0 ;;
                 dt_sub x (timedelta 0 0 0 1)
               else
                 x <- datetime_new year (month_num + 1) 1 0 0 0 0 ;;
                 dt_sub x (timedelta 0 0 0 1)) ;;
      Ok (Some (start, end_))
  | None =>
  match re_search quarter_at qlow with
  | Some (qn, yr) => w <- _quarter_bounds qn yr ;; Ok (Some w)
  | None =>
  match re_search from_to_at qlow with
  | Some (g1, g2) =>
      s <- fromisoformat_date g1 ;;
      e0 <- fromisoformat_date g2 ;;
      e <- replace_time e0 23 59 59 e0.(microsecond) ;;
      Ok (Some (s, e))
  | None => Ok None
  end end end.

Example resolve_q3 :
  resolve_date_window_from_query "Q3 2025" (mkdatetime 2025 10 15 14 30 0 0)
  = Ok (Some (mkdatetime 2025 7 1 0 0 0 0, mkdatetime 2025 9 30 23 59 59 0)).
Proof. vm_compute. reflexivity. Qed.

Example resolve_from_to :
  resolve_date_window_from_query "from 2025-01-10 to 2025-01-15"
    (mkdatetime 2025 10 15 14 30 0 0)
  = Ok (Some (mkdatetime 2025 1 10 0 0 0 0, mkdatetime 2025 1 15 23 59 59 0)).
Proof. vm_compute. reflexivity. Qed.

Example resolve_september :
  resolve_date_window_from_query "Meetings in September 2025?"
    (mkdatetime 2025 10 15 14 30 0 0)
  = Ok (Some (mkdatetime 2025 9 1 0 0 0 0, mkdatetime 2025 9 30 23 59 59 0)).
Proof. vm_compute. reflexivity. Qed.

Example resolve_last_month :
  resolve_date_window_from_query "what happened last month"
    (mkdatetime 2025 3 15 14 30 0 0)
  = Ok (Some (mkdatetime 2025 2 1 0 0 0 0, mkdatetime 2025 2 28 23 59 59 0)).
Proof. vm_compute. reflexivity. Qed.

Example resolve_none :
  resolve_date_window_from_query "budget review" (mkdatetime 2025 3 15 14 30 0 0)
  = Ok None.
Proof. vm_compute. reflexivity. Qed.

End Resolve.

(** ** Facts about the resolver's helpers *)

Module ResolveFacts.
Import Cal DT Resolve.

Lemma bind_ok {A B} (r : result A) (k : A -> result B) (v : B) :
  bind r k = Ok v -> exists a, r = Ok a /\ k a = Ok v.
Proof. destruct r; simpl; [eauto | discriminate]. Qed.

Ltac inv_bind H :=
  repeat match type of H with
         | bind _ _ = Ok _ =>
             let a := fresh "a" in let Ha := fresh "Ha" in
             apply bind_ok in H; destruct H as (a & Ha & H)
         end.

Lemma div_day (a t : Z) :
  0 <= t < US_PER_DAY -> (a * US_PER_DAY + t) / US_PER_DAY = a.
Proof.
  intros Ht. symmetry. apply Z.div_unique with t; [left; lia | ring].
Qed.

Lemma timedelta_days (n : Z) : timedelta n 0 0 0 = n * US_PER_DAY.
Proof. unfold timedelta, US_PER_DAY. ring. Qed.

Lemma monday_mod (o : Z) : (o - (o + 6) mod 7 + 6) mod 7 = 0.
Proof.
  pose proof (Z.div_mod (o + 6) 7 ltac:(lia)).
  replace (o - (o + 6) mod 7 + 6) with ((o + 6) / 7 * 7) by lia.
  apply Z.mod_mul. lia.
Qed.

(** Moving a valid instant by whole days. *)
Lemma shift_days (x : datetime) (n : Z) :
  wf x = true -> 1 <= toordinal x + n <= MAXORDINAL ->
  exists z, dt_add x (n * US_PER_DAY) = Ok z /\ wf z = true
            /\ toordinal z = toordinal x + n /\ key z = key x + n * US_PER_DAY.
Proof.
  intros W Hr. pose proof (time_of_day_bounds x W) as T.
  assert (Hd : (key x + n * US_PER_DAY) / US_PER_DAY = toordinal x + n).
  { rewrite key_time.
    replace (toordinal x * US_PER_DAY + time_of_day x + n * US_PER_DAY)
      with ((toordinal x + n) * US_PER_DAY + time_of_day x) by ring.
    apply div_day. assumption. }
  destruct (dt_add_spec x (n * US_PER_DAY)) as (z & E & Wz & Kz); [lia|].
  exists z. repeat split; try assumption.
  rewrite toordinal_key by assumption. rewrite Kz. exact Hd.
Qed.

(** [_week_bounds] of an instant a week away from the range limits: the
    start is the Monday of its week, the end 6 days 23:59:59 later. *)
Lemma week_bounds_spec (dt : datetime) :
  wf dt = true -> 7 <= toordinal dt <= MAXORDINAL - 7 ->
  exists s e, _week_bounds dt = Ok (s, e) /\ wf s = true
    /\ weekday s = 0 /\ toordinal s = toordinal dt - weekday dt
    /\ dt_add s (timedelta 6 23 59 59) = Ok e.
Proof.
  intros W Hr. unfold _week_bounds, dt_sub.
  assert (Hwd : 0 <= weekday dt < 7) by (apply Z.mod_pos_bound; lia).
  rewrite timedelta_days.
  replace (- (weekday dt * US_PER_DAY)) with ((- weekday dt) * US_PER_DAY) by ring.
  destruct (shift_days dt (- weekday dt) W ltac:(unfold MAXORDINAL in *; lia))
    as (s & Es & Ws & Os & Ks).
  rewrite Es. simpl.
  assert (Hdelta : (key s + timedelta 6 23 59 59) / US_PER_DAY
                   = toordinal s + 6 + (time_of_day s + 86399000000) / US_PER_DAY).
  { rewrite key_time. unfold timedelta.
    replace (toordinal s * US_PER_DAY + time_of_day s
             + (((6 * 24 + 23) * 60 + 59) * 60 + 59) * 1000000)
      with ((toordinal s + 6) * US_PER_DAY + (time_of_day s + 86399000000))
      by (unfold US_PER_DAY; ring).
    rewrite Z.div_add_l by (unfold US_PER_DAY; lia). ring. }
  pose proof (time_of_day_bounds s Ws) as Ts.
  assert (0 <= (time_of_day s + 86399000000) / US_PER_DAY <= 1).
  { unfold US_PER_DAY in *. split.
    - apply Z.div_pos; lia.
    - apply Z.lt_succ_r. apply Z.div_lt_upper_bound; lia. }
  destruct (dt_add_spec s (timedelta 6 23 59 59)) as (e & Ee & We & Ke).
  { rewrite Hdelta. unfold MAXORDINAL in *. lia. }
  exists s, e. split; [rewrite Ee; reflexivity|].
  repeat split; try assumption.
  unfold weekday. rewrite Os. unfold weekday. apply monday_mod.
Qed.

(** *** Each rule of the resolver but the literal range yields [start <= end]. *)

Lemma day_window_ordered (dt s e : datetime) :
  day_window dt = Ok (Some (s, e)) -> dt_le s e = true.
Proof.
  unfold day_window, replace_time. intros H. inv_bind H.
  apply datetime_new_inv in Ha as [-> _]. apply datetime_new_inv in Ha0 as [-> _].
  injection H as <- <-.
  unfold dt_le, dt_cmp. simpl. rewrite !Z.compare_refl. reflexivity.
Qed.

Lemma week_bounds_ordered (dt s e : datetime) :
  _week_bounds dt = Ok (s, e) -> dt_le s e = true.
Proof.
  unfold _week_bounds, dt_sub. intros H. inv_bind H.
  injection H as <- <-.
  apply dt_add_inv in Ha as (Ws & _). apply dt_add_inv in Ha0 as (We & Ke & _).
  rewrite dt_le_key by assumption. apply Z.leb_le. rewrite Ke.
  unfold timedelta. lia.
Qed.

(** The second before the first instant of a later day is after [s] when
    [s] is at midnight. *)
Lemma before_next_day_after (s x e : datetime) :
  wf s = true -> wf x = true -> time_of_day s = 0 ->
  toordinal s < toordinal x ->
  dt_sub x (timedelta 0 0 0 1) = Ok e -> dt_le s e = true.
Proof.
  intros Ws Wx Ts Hlt H. unfold dt_sub in H.
  apply dt_add_inv in H as (We & Ke & _).
  rewrite dt_le_key by assumption. apply Z.leb_le. rewrite Ke.
  pose proof (time_of_day_bounds x Wx).
  rewrite !key_time. rewrite Ts. unfold timedelta, US_PER_DAY in *. nia.
Qed.

Lemma first_of_month_ord_lt (y m y' m' : Z) (s x : datetime) :
  datetime_new y m 1 0 0 0 0 = Ok s ->
  datetime_new y' m' 1 0 0 0 0 = Ok x ->
  (y < y' \/ (y = y' /\ m < m')) -> toordinal s < toordinal x.
Proof.
  intros Hs Hx Hlt.
  apply datetime_new_inv in Hs as [-> Ws]. apply datetime_new_inv in Hx as [-> Wx].
  apply wf_spec in Ws, Wx. simpl in Ws, Wx. unfold toordinal. simpl.
  destruct Hlt as [Hy | [<- Hm]].
  - apply ymd2ord_lt_year; lia.
  - apply ymd2ord_lt_month; lia.
Qed.

Lemma month_bounds_ordered (dt s e : datetime) :
  _month_bounds dt = Ok (s, e) -> dt_le s e = true.
Proof.
  unfold _month_bounds, replace_date. intros H. inv_bind H.
  injection H as <- <-.
  pose proof Ha as Hs. apply datetime_new_inv in Hs as [Es Ws].
  rewrite Es in Ha0 |- *. simpl in Ha0.
  destruct (month dt =? 12); inv_bind Ha0;
    (apply (before_next_day_after _ a1 _);
     [ rewrite <- Es; exact Ws
     | apply datetime_new_inv in Ha1 as [_ W]; exact W
     | reflexivity
     | rewrite <- Es; eapply first_of_month_ord_lt; [exact Ha | exact Ha1 | lia]
     | exact Ha0 ]).
Qed.

Lemma quarter_bounds_ordered (qn yr : Z) (s e : datetime) :
  _quarter_bounds qn yr = Ok (s, e) -> dt_le s e = true.
Proof.
  unfold _quarter_bounds. intros H.
  destruct (starts qn) as [[sm sd]|] eqn:Hs; [|discriminate].
  assert (Hq : qn = 1 \/ qn = 2 \/ qn = 3 \/ qn = 4).
  { unfold starts in Hs. destruct qn as [|p|p]; try discriminate.
    destruct p as [p|p|]; try (destruct p as [p|p|]); try (destruct p as [p|p|]);
      try discriminate; lia. }
  destruct Hq as [->|[->|[->| ->]]]; cbn -[datetime_new dt_add] in H, Hs;
    injection Hs as <- <-; inv_bind H; injection H as <- <-.
  4: { apply datetime_new_inv in Ha as [-> _]. apply datetime_new_inv in Ha0 as [-> _].
       unfold dt_le, dt_cmp. simpl. rewrite Z.compare_refl. reflexivity. }
  all: inv_bind Ha0;
    (apply (before_next_day_after _ a1 _);
     [ apply datetime_new_inv in Ha as [_ W]; exact W
     | apply datetime_new_inv in Ha1 as [_ W]; exact W
     | apply datetime_new_inv in Ha as [-> _]; reflexivity
     | eapply first_of_month_ord_lt; [exact Ha | exact Ha1 | lia]
     | exact Ha0 ]).
Qed.

End ResolveFacts.

(** ** [semantic_search]: metadata dates, temporal filter, reranking *)

Module Search.
Import Cal DT Resolve.

(** The metadata record of a chunk, as the ingestion pipeline writes it:
    each key may be missing ([None]); [tags] is a list of strings. *)
Record meta : Type := mkmeta {
  m_folder : option string;
  m_tags : option (list string);
  m_meeting_date : option string;
  m_valid_from : option string;
  m_valid_to : option string }.

(** A hit [(id, distance, metadata)]. *)
Definition hit : Type := (Z * Q * meta)%type.

Definition hit_meta (h : hit) : meta := let '(_, _, m) := h in m.
Definition hit_dist (h : hit) : Q := let '(_, d, _) := h in d.

Definition str_eqb (a b : list ascii) : bool :=
  if list_eq_dec ascii_dec a b then true else false.

(** [str.strip()] on ASCII text. *)
Fixpoint drop_spaces (l : list ascii) : list ascii :=
  match l with c :: t => if is_space c then drop_spaces t else l | [] => [] end.
Definition strip (l : list ascii) : list ascii := rev (drop_spaces (rev (drop_spaces l))).

(** [s.replace] of every "Z" by the empty string. *)
Definition remove_Z (l : list ascii) : list ascii :=
  filter (fun c => negb (Ascii.eqb c "Z"%char)) l.

Section Parsing.
(** [datetime.fromisoformat] and [datetime.strptime(_, "%Y-%m-%d")]
    (library code), raising [ValueError] on text they do not accept. *)
Variable fromisoformat : list ascii -> result datetime.
Variable strptime_ymd : list ascii -> result datetime.

Definition _parse_iso (s : option string) : option datetime :=
  match s with
  | None => None
  | Some s =>
      let s := list_ascii_of_string s in
      match s with
      | [] => None
      | _ =>
          match fromisoformat (remove_Z s) with
          | Ok d => Some d
          | Err _ =>
              match strptime_ymd (firstn 10 s) with
              | Ok d => Some d
              | Err _ => None
              end
          end
      end
  end.

(** *** [filter_by_date_range] *)

Definition _overlap (a_start a_end b_start b_end : datetime) : bool :=
  dt_le a_start b_end && dt_le b_start a_end.

Definition keep_in_range (start end_ : datetime) (m : meta) : bool :=
  let md := _parse_iso m.(m_meeting_date) in
  if match md with Some md => dt_le start md && dt_le md end_ | None => false end
  then true
  else
    let vf := _parse_iso m.(m_valid_from) in
    let vt := match _parse_iso m.(m_valid_to) with Some vt => vt | None => datetime_max end in
    match vf with Some vf => _overlap vf vt start end_ | None => false end.

(** The loop over [results], appending to [kept]. *)
Fixpoint filter_by_date_range (results : list hit) (start end_ : datetime) : list hit :=
  match results with
  | [] => []
  | h :: rest =>
      if keep_in_range start end_ (hit_meta h)
      then h :: filter_by_date_range rest start end_
      else filter_by_date_range rest start end_
  end.

(** *** [rerank] *)

(** [_TAG_RE.findall(query.lower())]: the maximal runs of [[A-Za-z0-9_]]. *)
Fixpoint word_runs (l : list ascii) (cur : list ascii) : list (list ascii) :=
  match l with
  | [] => match cur with [] => [] | _ => [rev cur] end
  | c :: t => if is_word_char c then word_runs t (c :: cur)
              else match cur with [] => word_runs t [] | _ => rev cur :: word_runs t [] end
  end.

Definition _query_tags (query : string) : list (list ascii) :=
  filter (fun t => (3 <=? List.length t)%nat) (word_runs (lower (list_ascii_of_string query)) []).

Definition mem (x : list ascii) (l : list (list ascii)) : bool := existsb (str_eqb x) l.

Fixpoint dedup (l : list (list ascii)) : list (list ascii) :=
  match l with [] => [] | x :: t => if mem x t then dedup t else x :: dedup t end.

(** [len(qtags.intersection(tags))] *)
Definition intersection_size (qtags tags : list (list ascii)) : nat :=
  List.length (filter (fun t => mem t tags) (dedup qtags)).

(** [{t.strip().lower() for t in (meta.get("tags") or []) if t}] *)
Definition meta_tags (m : meta) : list (list ascii) :=
  map (fun t => lower (strip (list_ascii_of_string t)))
      (filter (fun t => negb (String.eqb t EmptyString)) (match m.(m_tags) with Some ts => ts | None => [] end)).

(** [str(meta.get("folder", <empty string>)).lower()] *)
Definition meta_folder (m : meta) : list ascii :=
  lower (list_ascii_of_string (match m.(m_folder) with Some f => f | None => EmptyString end)).

Definition tag_bonus (qtags : list (list ascii)) (m : meta) : Q :=
  (1 # 20) * inject_Z (Z.of_nat (intersection_size qtags (meta_tags m))).

Definition meet_bonus (prefer_recent : bool) (mdate : option datetime) : Q :=
  match prefer_recent, mdate with
  | true, Some d => inject_Z (toordinal d) / inject_Z 365000
  | _, _ => 0
  end.

Definition folder_bonus (prefer_meetings : bool) (folder : list ascii) : Q :=
  (if prefer_meetings && str_eqb folder (lit "meetings") then 1 # 5 else 0)
  + (if str_eqb folder (lit "reminders") then 3 # 20 else 0).

Definition validity_bonus (now : datetime) (folder : list ascii) (m : meta) : Q :=
  if str_eqb folder (lit "reminders") then
    let vfrom := _parse_iso m.(m_valid_from) in
    let vto := _parse_iso m.(m_valid_to) in
    let valid_now :=
      negb (match vfrom with Some f => dt_lt now f | None => false end)
      && negb (match vto with Some t => dt_lt t now | None => false end) in
    if valid_now then 1 # 5 else - (2 # 5)
  else 0.

Section Rerank.
(** [datetime.now()] at the call, and [_CONF["metric"]]. *)
Variable now : datetime.
Variable metric : string.

(** The score of one hit; [1.0 / (1.0 + dist)] raises when [dist = -1]. *)
Definition score_hit (qtags : list (list ascii)) (prefer_meetings prefer_recent : bool)
    (h : hit) : result Q :=
  let '(rid, dist, m) := h in
  base <- (if String.eqb metric "l2" then
             if Qeq_bool (1 + dist) 0 then Err ZeroDivisionError
             else Ok (/ (1 + dist))%Q
           else Ok dist) ;;
  let folder := meta_folder m in
  let mdate := _parse_iso m.(m_meeting_date) in
  Ok (base + tag_bonus qtags m + folder_bonus prefer_meetings folder
      + meet_bonus prefer_recent mdate + validity_bonus now folder m)%Q.

Fixpoint rescore (qtags : list (list ascii)) (pm pr : bool) (results : list hit)
    : result (list (Q * hit)) :=
  match results with
  | [] => Ok []
  | h :: rest =>
      score <- score_hit qtags pm pr h ;;
      tl <- rescore qtags pm pr rest ;;
      Ok ((score, h) :: tl)
  end.

(** [rescored.sort(key=lambda x: x[0], reverse=True)]: a stable sort,
    descending by score.  Any stable sort gives this list; it is written
    here as an insertion sort that puts an element before the later ones
    whose score is not larger. *)
Fixpoint insert_desc (x : Q * hit) (l : list (Q * hit)) : list (Q * hit) :=
  match l with
  | [] => [x]
  | y :: t => if Qle_bool (fst y) (fst x) then x :: y :: t else y :: insert_desc x t
  end.

Fixpoint sort_desc (l : list (Q * hit)) : list (Q * hit) :=
  match l with
  | [] => []
  | x :: t => insert_desc x (sort_desc t)
  end.

Definition rerank (results : list hit) (query : string)
    (prefer_meetings prefer_recent : bool) : result (list hit) :=
  let qtags := _query_tags query in
  rescored <- rescore qtags prefer_meetings prefer_recent results ;;
  Ok (map snd (sort_desc rescored)).

Definition rerank_for_recency (results : list hit) (query : string) : result (list hit) :=
  rerank results query false true.

End Rerank.
End Parsing.

(** *** The entry points over the loaded index *)

(** [lst[:k]] *)
Definition py_prefix {A} (l : list A) (k : Z) : list A :=
  if (0 <=? k)%Z then firstn (Z.to_nat k) l
  else firstn (Z.to_nat (Z.of_nat (List.length l) + k)) l.

Section Entry.
Variable fromisoformat strptime_ymd : list ascii -> result datetime.
Variable now : datetime.
Variable metric : string.
(** The FAISS index and the metadata table ([load_resources] raises
    [RuntimeError] when the files are missing), the embedding backend, and
    [index.search(qvec, n)] as its list of [(distance, id)] pairs. *)
Variable Index Vec : Type.
Variable load_resources : result (Index * (Z -> option meta)).
Variable embed_query : string -> result Vec.
Variable index_search : Index -> Vec -> Z -> list (Q * Z).

Definition empty_meta : meta := mkmeta None None None None None.

Definition search (query : string) (k : Z) : result (list hit) :=
  res <- load_resources ;;
  let '(index, metadata) := res in
  qvec <- embed_query query ;;
  let DI := index_search index qvec (Z.max k 100) in
  let out := flat_map (fun '(dist, idx) =>
               if (idx =? -1)%Z then []
               else [(idx, dist, match metadata idx with Some m => m | None => empty_meta end)])
             DI in
  Ok (py_prefix out k).

Definition search_meetings (query : string) (k : Z) : result (list hit) :=
  pool <- search query (Z.max k 50) ;;
  ranked <- rerank fromisoformat strptime_ymd now metric pool query true true ;;
  Ok (py_prefix ranked k).

Definition search_in_date_window (query : string) (start end_ : datetime) (k : Z)
    : result (list hit) :=
  pool <- search query (Z.max k 200) ;;
  let windowed := filter_by_date_range fromisoformat strptime_ymd pool start end_ in
  match windowed with
  | [] => Ok []
  | _ => ranked <- rerank_for_recency fromisoformat strptime_ymd now metric windowed query ;;
         Ok (py_prefix ranked k)
  end.

End Entry.

End Search.

(** ** [answer_with_rag.answer] and the chat page's [_safe_answer] *)

Module Answer.
Import Cal DT Resolve Search.

Definition NO_RESULTS : string :=
  "No relevant documents or reminders found in the specified scope.".

Section Answer.
Variable fromisoformat strptime_ymd : list ascii -> result datetime.
(** [_today()] in the resolver and [datetime.now()] in [rerank]. *)
Variable today now : datetime.
Variable metric : string.
Variable Index Vec : Type.
Variable load_resources : result (Index * (Z -> option meta)).
Variable embed_query : string -> result Vec.
Variable index_search : Index -> Vec -> Z -> list (Q * Z).
(** [_synth_answer(question, hits)]: the chat model's reply, or the
    extract of the hits when no model is configured; it catches the
    model's errors itself. *)
Variable _synth_answer : string -> list hit -> string.

(** [chat_history] is accepted and unused. *)
Definition answer (question : string) (k : Z) (restrict_to_meetings use_rag : bool)
    : result string :=
  window <- resolve_date_window_from_query question today ;;
  hits <- match window with
          | Some (s, e) =>
              search_in_date_window fromisoformat strptime_ymd now metric
                Index Vec load_resources embed_query index_search question s e k
          | None =>
              if restrict_to_meetings then
                search_meetings fromisoformat strptime_ymd now metric
                  Index Vec load_resources embed_query index_search question k
              else search Index Vec load_resources embed_query index_search question k
          end ;;
  match hits with
  | [] => Ok NO_RESULTS
  | _ => if use_rag then Ok (_synth_answer question hits)
         else Ok (_synth_answer question hits)
  end.

End Answer.

Definition stub (query : string) : string := ("(stub) You asked: " ++ query)%string.

(** [_safe_answer] of [chat_ceo.py]: [rag_answer] is [answer] when the
    import succeeded (called as [rag_answer(query, k=k, ...,
    restrict_to_meetings=...)], then as [rag_answer(query)] after a
    [TypeError]); every other exception gives the stub reply (the message
    is also stored in the global [_last_exception]). *)
Definition _safe_answer (rag_answer : option (string -> Z -> bool -> result string))
    (query : string) (k : Z) (restrict_to_meetings : bool) : string :=
  match rag_answer with
  | None => stub query
  | Some f =>
      match f query k restrict_to_meetings with
      | Ok r => r
      | Err TypeError =>
          match f query 7 false with
          | Ok r => r
          | Err _ => stub query
          end
      | Err _ => stub query
      end
  end.

End Answer.

(** ** Facts about the search model *)

Module SearchFacts.
Import Cal DT Resolve Search.

(** Every valid datetime is at most [datetime.max]. *)
Lemma dt_le_max (x : datetime) : wf x = true -> dt_le x datetime_max = true.
Proof.
  intros W. rewrite dt_le_key by (auto; vm_compute; reflexivity). apply Z.leb_le.
  pose proof (time_of_day_bounds x W) as Ht. rewrite key_time.
  assert (toordinal x <= MAXORDINAL).
  { pose proof W as W'. apply wf_spec in W'. destruct W' as (Hy & Hm & Hd & _).
    unfold toordinal. pose proof (ymd2ord_in_year _ _ _ Hm Hd).
    pose proof (days_before_year_mono (year x + 1) (9999 - year x) ltac:(lia)) as Hmono.
    replace (year x + 1 + (9999 - year x)) with 10000 in Hmono by ring.
    assert (_days_before_year 10000 = MAXORDINAL) by (vm_compute; reflexivity). lia. }
  assert (key datetime_max = MAXORDINAL * US_PER_DAY + (US_PER_DAY - 1))
    by (vm_compute; reflexivity).
  rewrite H0. unfold US_PER_DAY, MAXORDINAL in *. lia.
Qed.

(** _parse_iso of an absent or empty string is [None]. *)
Lemma parse_iso_none fi sp : _parse_iso fi sp None = None.
Proof. reflexivity. Qed.

(** *** The stable descending sort *)

Definition desc (x y : Q * hit) : Prop := (fst y <= fst x)%Q.

Lemma insert_desc_perm (x : Q * hit) (l : list (Q * hit)) :
  Permutation (insert_desc x l) (x :: l).
Proof.
  induction l as [|y t IH]; simpl; [auto|].
  destruct (Qle_bool (fst y) (fst x)); [auto|].
  transitivity (y :: x :: t); [constructor; exact IH | apply perm_swap].
Qed.

Lemma sort_desc_perm (l : list (Q * hit)) : Permutation (sort_desc l) l.
Proof.
  induction l as [|x t IH]; simpl; [auto|].
  transitivity (x :: sort_desc t); [apply insert_desc_perm | constructor; exact IH].
Qed.

Lemma insert_desc_hdrel (a x : Q * hit) (l : list (Q * hit)) :
  HdRel desc a l -> desc a x -> HdRel desc a (insert_desc x l).
Proof.
  destruct l as [|y t]; simpl; intros H Hx; [constructor; exact Hx|].
  destruct (Qle_bool (fst y) (fst x)); constructor; [exact Hx|].
  inversion H; assumption.
Qed.

Lemma insert_desc_sorted (x : Q * hit) (l : list (Q * hit)) :
  Sorted desc l -> Sorted desc (insert_desc x l).
Proof.
  induction l as [|y t IH]; simpl; intros H; [repeat constructor|].
  case_eq (Qle_bool (fst y) (fst x)); intros E.
  - constructor; [exact H|]. constructor. apply Qle_bool_iff. exact E.
  - inversion H as [|? ? Ht Hh]; subst. constructor; [apply IH; exact Ht|].
    apply insert_desc_hdrel; [exact Hh|].
    unfold desc. apply Qlt_le_weak. apply Qnot_le_lt. intros C.
    apply Qle_bool_iff in C. congruence.
Qed.

Lemma sort_desc_sorted (l : list (Q * hit)) : Sorted desc (sort_desc l).
Proof.
  induction l as [|x t IH]; simpl; [constructor|]. apply insert_desc_sorted. exact IH.
Qed.

Definition score_is (v : Q) (p : Q * hit) : bool := Qeq_bool (fst p) v.

(** Inserting [x] passes only over elements of strictly larger score, so the
    elements of [x]'s score keep [x] in front of them. *)
Lemma insert_desc_filter (v : Q) (x : Q * hit) (l : list (Q * hit)) :
  filter (score_is v) (insert_desc x l) = filter (score_is v) (x :: l).
Proof.
  induction l as [|y t IH]; simpl; [reflexivity|].
  case_eq (Qle_bool (fst y) (fst x)); intros E; [reflexivity|].
  simpl. rewrite IH. simpl. unfold score_is.
  case_eq (Qeq_bool (fst x) v); intros Ex; case_eq (Qeq_bool (fst y) v); intros Ey;
    try reflexivity.
  exfalso. apply Qeq_bool_iff in Ex, Ey.
  assert (C : (fst y <= fst x)%Q) by (rewrite Ex, Ey; apply Qle_refl).
  apply Qle_bool_iff in C. congruence.
Qed.

Lemma sort_desc_filter (v : Q) (l : list (Q * hit)) :
  filter (score_is v) (sort_desc l) = filter (score_is v) l.
Proof.
  induction l as [|x t IH]; simpl; [reflexivity|].
  rewrite insert_desc_filter. simpl. rewrite IH. reflexivity.
Qed.

Lemma sort_desc_sorted_id (l : list (Q * hit)) : Sorted desc l -> sort_desc l = l.
Proof.
  induction l as [|x t IH]; simpl; intros H; [reflexivity|].
  inversion H as [|? ? Ht Hh]; subst. rewrite IH by exact Ht.
  destruct t as [|y t]; simpl; [reflexivity|].
  inversion Hh as [|? ? Hd]; subst.
  rewrite (proj2 (Qle_bool_iff _ _) Hd). reflexivity.
Qed.

Lemma Sorted_map {A B} (R : A -> A -> Prop) (R' : B -> B -> Prop) (f : A -> B)
    (P : A -> Prop) (l : list A) :
  (forall x y, P x -> P y -> R x y -> R' (f x) (f y)) ->
  Forall P l -> Sorted R l -> Sorted R' (map f l).
Proof.
  intros HR. induction l as [|x t IH]; simpl; intros HP HS; [constructor|].
  inversion HP as [|? ? Px Pt]; subst. inversion HS as [|? ? St Ht]; subst.
  constructor; [apply IH; assumption|].
  destruct t as [|y t']; simpl; constructor.
  inversion Ht; subst. inversion Pt; subst. apply HR; assumption.
Qed.

Lemma filter_map_snd {A B} (P : B -> bool) (l : list (A * B)) :
  filter P (map snd l) = map snd (filter (fun p => P (snd p)) l).
Proof.
  induction l as [|x t IH]; simpl; [reflexivity|].
  destruct (P (snd x)); simpl; rewrite IH; reflexivity.
Qed.

Lemma Forall_perm {A} (P : A -> Prop) (l l' : list A) :
  Permutation l l' -> Forall P l' -> Forall P l.
Proof.
  intros HP HF. apply Forall_forall. intros x Hx.
  eapply Forall_forall; [exact HF|]. eapply Permutation_in; eassumption.
Qed.

(** *** [rescore] *)

Section Rescore.
Variable fi sp : list ascii -> result datetime.
Variable now : datetime.
Variable metric : string.
Variable qtags : list (list ascii).
Variable pm pr : bool.

Definition scored_ok (p : Q * hit) : Prop :=
  score_hit fi sp now metric qtags pm pr (snd p) = Ok (fst p).

Lemma rescore_spec (results : list hit) (l : list (Q * hit)) :
  rescore fi sp now metric qtags pm pr results = Ok l ->
  map snd l = results /\ Forall scored_ok l.
Proof.
  revert l. induction results as [|h rest IH]; simpl; intros l H.
  - injection H as <-. split; [reflexivity | constructor].
  - destruct (score_hit fi sp now metric qtags pm pr h) eqn:Es; simpl in H; [|discriminate].
    destruct (rescore fi sp now metric qtags pm pr rest) eqn:Er; simpl in H; [|discriminate].
    injection H as <-. destruct (IH _ eq_refl) as [Hm Hf].
    split; simpl; [rewrite Hm; reflexivity | constructor; [exact Es | exact Hf]].
Qed.

Lemma rescore_pairs (l : list (Q * hit)) :
  Forall scored_ok l -> rescore fi sp now metric qtags pm pr (map snd l) = Ok l.
Proof.
  induction l as [|[s h] t IH]; simpl; intros H; [reflexivity|].
  inversion H as [|? ? Hs Ht]; subst. unfold scored_ok in Hs. simpl in Hs.
  rewrite Hs. simpl. rewrite (IH Ht). reflexivity.
Qed.

(** With distances admissible for the metric, scoring never raises. *)
Lemma rescore_total (results : list hit) :
  (String.eqb metric "l2" = true -> Forall (fun h => (0 <= hit_dist h)%Q) results) ->
  exists l, rescore fi sp now metric qtags pm pr results = Ok l.
Proof.
  intros Hd. induction results as [|[[rid dist] m] rest IH]; simpl; [eauto|].
  assert (Hr : String.eqb metric "l2" = true -> Forall (fun h => (0 <= hit_dist h)%Q) rest)
    by (intros E; specialize (Hd E); inversion Hd; assumption).
  destruct (IH Hr) as [l El].
  destruct (String.eqb metric "l2") eqn:Em.
  - assert (Hn : Qeq_bool (1 + dist) 0 = false).
    { specialize (Hd eq_refl). inversion Hd as [|? ? H0]; subst. simpl in H0.
      destruct (Qeq_bool (1 + dist) 0) eqn:E; [|reflexivity].
      apply Qeq_bool_iff in E. lra. }
    rewrite Hn. simpl. rewrite El. simpl. eauto.
  - simpl. rewrite El. simpl. eauto.
Qed.

End Rescore.

Lemma py_prefix_length {A} (l : list A) (k : Z) :
  0 <= k -> Z.of_nat (List.length (py_prefix l k)) <= k.
Proof.
  intros Hk. unfold py_prefix. rewrite (proj2 (Z.leb_le 0 k) Hk).
  pose proof (firstn_le_length (Z.to_nat k) l). lia.
Qed.

End SearchFacts.

(** ** Further facts: the calendar, the resolver's bounds, the search entry points *)

Module CalFacts.
Import Cal DT ResolveFacts.

Lemma lexc_eq (c r : comparison) : lexc c r = Eq -> c = Eq /\ r = Eq.
Proof. destruct c; simpl; auto; discriminate. Qed.

(** Two valid datetimes with the same microsecond count are equal. *)
Lemma key_inj (x y : datetime) : wf x = true -> wf y = true -> key x = key y -> x = y.
Proof.
  intros Wx Wy K. assert (C : dt_cmp x y = Eq) by (rewrite dt_cmp_key, K by assumption;
    apply Z.compare_refl).
  unfold dt_cmp in C.
  repeat match goal with
         | H : lexc _ _ = Eq |- _ => apply lexc_eq in H; destruct H
         end.
  repeat match goal with H : Z.compare _ _ = Eq |- _ => apply Z.compare_eq in H end.
  destruct x, y; simpl in *; subst; reflexivity.
Qed.

(** The day after the last day of a month is the first of the next one. *)
Lemma next_month_first (y m : Z) :
  1 <= m <= 12 ->
  _ymd2ord (if m =? 12 then y + 1 else y) (if m =? 12 then 1 else m + 1) 1
  = _ymd2ord y m (_days_in_month y m) + 1.
Proof.
  intros Hm. unfold _ymd2ord.
  destruct (month_cases m Hm) as [->|[->|[->|[->|[->|[->|[->|[->|[->|[->|[->| ->]]]]]]]]]]];
    simpl; [..| rewrite days_before_year_succ];
    unfold _days_before_month, _days_in_month, days_in_year; destruct (_is_leap y);
    simpl; lia.
Qed.

Lemma ymd2ord_pos (y m d : Z) :
  1 <= y -> 1 <= m <= 12 -> 1 <= d <= _days_in_month y m -> 1 <= _ymd2ord y m d.
Proof.
  intros Hy Hm Hd. pose proof (ymd2ord_in_year y m d Hm Hd).
  pose proof (days_before_year_mono 1 (y - 1) ltac:(lia)) as M.
  replace (1 + (y - 1)) with y in M by ring. change (_days_before_year 1) with 0 in M. lia.
Qed.

Lemma wf_date_spec (y m d : Z) :
  wf_date y m d = true -> 1 <= y <= 9999 /\ 1 <= m <= 12 /\ 1 <= d <= _days_in_month y m.
Proof.
  unfold wf_date. intros H. repeat rewrite andb_true_iff in H.
  repeat match goal with
         | H : _ /\ _ |- _ => destruct H
         | H : (_ <=? _) = true |- _ => apply Z.leb_le in H
         end. lia.
Qed.

Lemma toordinal_max (x : datetime) : wf x = true -> toordinal x <= MAXORDINAL.
Proof.
  intros W. apply wf_spec in W. destruct W as (Hy & Hm & Hd & _).
  unfold toordinal. pose proof (ymd2ord_in_year _ _ _ Hm Hd).
  pose proof (days_before_year_mono (year x + 1) (9999 - year x) ltac:(lia)) as Hmono.
  replace (year x + 1 + (9999 - year x)) with 10000 in Hmono by ring.
  change (_days_before_year 10000) with MAXORDINAL in Hmono. lia.
Qed.

(** One second before midnight of [x]'s day is 23:59:59 of the day before. *)
Lemma before_midnight (x : datetime) (y m d : Z) :
  wf x = true -> time_of_day x = 0 -> wf_date y m d = true ->
  _ymd2ord y m d = toordinal x - 1 ->
  dt_sub x (timedelta 0 0 0 1) = Ok (mkdatetime y m d 23 59 59 0).
Proof.
  intros Wx Tx Wd Ho. apply wf_date_spec in Wd as (Hy & Hm & Hd).
  pose proof (ymd2ord_pos y m d ltac:(lia) Hm Hd).
  pose proof (toordinal_max x Wx).
  assert (Ww : wf (mkdatetime y m d 23 59 59 0) = true) by (apply wf_intro; simpl; lia).
  unfold dt_sub.
  destruct (dt_add_spec x (- timedelta 0 0 0 1)) as (z & E & Wz & Kz).
  { rewrite key_time, Tx. unfold timedelta.
    replace (toordinal x * US_PER_DAY + 0 + - ((((0 * 24 + 0) * 60 + 0) * 60 + 1) * 1000000))
      with ((toordinal x - 1) * US_PER_DAY + (US_PER_DAY - 1000000))
      by (unfold US_PER_DAY; ring).
    rewrite div_day by (unfold US_PER_DAY; lia). unfold MAXORDINAL in *. lia. }
  rewrite E. f_equal. apply key_inj; [assumption | assumption |].
  rewrite Kz, key_time, Tx. unfold key, toordinal. simpl. rewrite Ho.
  unfold timedelta, US_PER_DAY, toordinal. lia.
Qed.

Lemma datetime_new_wf (x : datetime) :
  wf x = true ->
  datetime_new x.(year) x.(month) x.(day) x.(hour) x.(minute) x.(second) x.(microsecond)
  = Ok x.
Proof.
  unfold wf. destruct (datetime_new _ _ _ _ _ _ _) as [x'|] eqn:E; [|discriminate].
  intros _. apply datetime_new_inv in E as [-> _]. destruct x; reflexivity.
Qed.

Lemma datetime_new_ok (y m d h mi se us : Z) :
  wf (mkdatetime y m d h mi se us) = true ->
  datetime_new y m d h mi se us = Ok (mkdatetime y m d h mi se us).
Proof. intros W. exact (datetime_new_wf _ W). Qed.

Lemma midnight_first_wf (y m : Z) :
  1 <= y <= 9999 -> 1 <= m <= 12 -> wf (mkdatetime y m 1 0 0 0 0) = true.
Proof.
  intros Hy Hm. pose proof (days_in_month_bounds y m Hm). apply wf_intro; simpl; lia.
Qed.

Lemma last_second_wf_date (y m : Z) :
  1 <= y <= 9999 -> 1 <= m <= 12 -> wf_date y m (_days_in_month y m) = true.
Proof.
  intros Hy Hm. pose proof (days_in_month_bounds y m Hm). unfold wf_date.
  repeat (apply andb_true_iff; split); try apply Z.leb_le; lia.
Qed.

(** The first second of the month after [(y, m)], minus one second. *)
Lemma end_of_month (y m : Z) (x : datetime) :
  1 <= y <= 9999 -> 1 <= m <= 12 ->
  x = mkdatetime (if m =? 12 then y + 1 else y) (if m =? 12 then 1 else m + 1) 1 0 0 0 0 ->
  wf x = true ->
  dt_sub x (timedelta 0 0 0 1) = Ok (mkdatetime y m (_days_in_month y m) 23 59 59 0).
Proof.
  intros Hy Hm -> W. apply before_midnight; [exact W | reflexivity | |].
  - apply last_second_wf_date; assumption.
  - unfold toordinal. simpl. rewrite (next_month_first y m Hm). ring.
Qed.

End CalFacts.

Module BoundsFacts.
Import Cal DT Resolve ResolveFacts CalFacts.

(** [_month_bounds dt]: from the first of [dt]'s month at 00:00:00 to its
    last day at 23:59:59, except December 9999, whose next month does not
    exist. *)
Lemma month_bounds_exact (dt : datetime) :
  wf dt = true -> (month dt < 12 \/ year dt < 9999) ->
  _month_bounds dt
  = Ok (mkdatetime (year dt) (month dt) 1 0 0 0 0,
        mkdatetime (year dt) (month dt) (_days_in_month (year dt) (month dt)) 23 59 59 0).
Proof.
  intros W Hlim. pose proof W as S. apply wf_spec in S. destruct S as (Hy & Hm & _).
  unfold _month_bounds.
  rewrite (datetime_new_ok (year dt) (month dt) 1 0 0 0 0)
    by (apply midnight_first_wf; lia).
  simpl bind. cbn [month year]. unfold replace_date. cbn [hour minute second microsecond].
  destruct (Z.eqb_spec (month dt) 12) as [E|E].
  - rewrite (datetime_new_ok (year dt + 1) 1 1 0 0 0 0)
      by (apply midnight_first_wf; lia).
    simpl bind.
    rewrite (end_of_month (year dt) (month dt) _ ltac:(lia) Hm).
    + reflexivity.
    + rewrite E. reflexivity.
    + apply midnight_first_wf; lia.
  - rewrite (datetime_new_ok (year dt) (month dt + 1) 1 0 0 0 0)
      by (apply midnight_first_wf; lia).
    simpl bind.
    rewrite (end_of_month (year dt) (month dt) _ ltac:(lia) Hm).
    + reflexivity.
    + rewrite (proj2 (Z.eqb_neq _ _) E). reflexivity.
    + apply midnight_first_wf; lia.
Qed.

Lemma quarter_bounds_exact (q y : Z) :
  1 <= q <= 4 -> 1 <= y <= 9999 ->
  _quarter_bounds q y
  = Ok (mkdatetime y (3 * q - 2) 1 0 0 0 0,
        mkdatetime y (3 * q) (_days_in_month y (3 * q)) 23 59 59 0).
Proof.
  intros Hq Hy. unfold _quarter_bounds.
  assert (q = 1 \/ q = 2 \/ q = 3 \/ q = 4) as [->|[->|[->| ->]]] by lia;
    cbn -[datetime_new dt_sub _days_in_month];
    rewrite datetime_new_ok by (apply (midnight_first_wf y); lia);
    cbn -[datetime_new dt_sub _days_in_month].
  4: { unfold datetime_new, wf_date, _days_in_month. simpl.
       replace ((1 <=? y) && (y <=? 9999)) with true
         by (symmetry; apply andb_true_iff; split; apply Z.leb_le; lia).
       reflexivity. }
  all: rewrite datetime_new_ok by (apply (midnight_first_wf y); lia);
    cbn -[datetime_new dt_sub _days_in_month];
    erewrite end_of_month; [reflexivity | lia | lia | reflexivity | apply midnight_first_wf; lia].
Qed.

Lemma quarter_bounds_keyerror (q y : Z) :
  ~ (1 <= q <= 4) -> _quarter_bounds q y = Err KeyError.
Proof.
  intros Hq. unfold _quarter_bounds.
  destruct (starts q) as [[sm sd]|e] eqn:E.
  - exfalso. apply Hq. unfold starts in E. destruct q as [|p|p]; try discriminate.
    destruct p as [p|p|]; try (destruct p as [p|p|]); try (destruct p as [p|p|]);
      try discriminate; lia.
  - unfold starts in E. destruct q as [|p|p]; try (injection E as <-; reflexivity).
    destruct p as [p|p|]; try (destruct p as [p|p|]); try (destruct p as [p|p|]);
      try (injection E as <-; reflexivity); discriminate.
Qed.

(** *** What the patterns return *)

Lemma search_from_prop {A} (P : A -> Prop) (f : list ascii -> option A) :
  (forall l a, f l = Some a -> P a) ->
  forall l prev a, search_from f prev l = Some a -> P a.
Proof.
  intros Hf l. induction l as [|c t IH]; intros prev a H; simpl in H.
  - destruct (boundary_before prev); [|discriminate].
    destruct (f []) eqn:E; [injection H as <-; eapply Hf; exact E | discriminate].
  - destruct (if boundary_before prev then f (c :: t) else None) eqn:E.
    + injection H as <-. destruct (boundary_before prev); [|discriminate].
      eapply Hf; exact E.
    + eapply IH; exact H.
Qed.

Lemma is_digit_value (c : ascii) : is_digit c = true -> 0 <= digit_value c <= 9.
Proof.
  unfold is_digit, digit_value. intros H. apply andb_true_iff in H as [H1 H2].
  apply Z.leb_le in H1, H2. lia.
Qed.

Lemma digits_two (l ds r : list ascii) :
  digits 2 l = Some (ds, r) ->
  exists d1 d2, ds = [d1; d2] /\ is_digit d1 = true /\ is_digit d2 = true.
Proof.
  destruct l as [|d1 [|d2 t]]; simpl; try discriminate;
    destruct (is_digit d1) eqn:E1; try discriminate.
  - destruct (is_digit d2) eqn:E2; simpl; try discriminate.
    intros H. injection H as <- <-. eauto.
Qed.

Lemma match_20dd_range (l : list ascii) (y : Z) (r : list ascii) :
  match_20dd l = Some (y, r) -> 2000 <= y <= 2099.
Proof.
  unfold match_20dd. destruct (strip_prefix (lit "20") l) as [l'|]; [|discriminate].
  destruct (digits 2 l') as [[ds r']|] eqn:E; [|discriminate].
  intros H. injection H as <- _.
  destruct (digits_two _ _ _ E) as (d1 & d2 & -> & H1 & H2).
  apply is_digit_value in H1, H2. unfold int_of_digits. cbn [fold_left].
  assert (D2 : digit_value "2"%char = 2) by reflexivity.
  assert (D0 : digit_value "0"%char = 0) by reflexivity.
  rewrite D2, D0. revert H1 H2.
  generalize (digit_value d1) (digit_value d2). intros a b H1 H2. lia.
Qed.

Lemma month_alt_range (names : list string) (i : Z) (l : list ascii) (mn y : Z) :
  month_alt names i l = Some (mn, y) ->
  i + 1 <= mn <= i + Z.of_nat (List.length names) /\ 2000 <= y <= 2099.
Proof.
  revert i. induction names as [|nm rest IH]; intros i H; simpl in H; [discriminate|].
  assert (Hrec : month_alt rest (i + 1) l = Some (mn, y) ->
                 i + 1 <= mn <= i + Z.of_nat (List.length (nm :: rest)) /\ 2000 <= y <= 2099)
    by (intros R; apply IH in R; simpl List.length; lia).
  destruct (strip_prefix (lit nm) l) as [l1|]; [|exact (Hrec H)].
  destruct (spaces1 l1) as [l2|]; [|exact (Hrec H)].
  destruct (match_20dd l2) as [[y' l3]|] eqn:E; [|exact (Hrec H)].
  destruct (boundary_after l3); [|exact (Hrec H)].
  injection H as <- <-. apply match_20dd_range in E. simpl List.length. lia.
Qed.

Lemma month_year_at_eq (l : list ascii) : month_year_at l = month_alt MONTHS 0 l.
Proof. reflexivity. Qed.

Lemma month_year_range (l : list ascii) (mn y : Z) :
  re_search month_year_at l = Some (mn, y) -> 1 <= mn <= 12 /\ 2000 <= y <= 2099.
Proof.
  intros H.
  assert (HP : forall l' p, month_year_at l' = Some p ->
                            1 <= fst p <= 12 /\ 2000 <= snd p <= 2099).
  { intros l' [mn' y'] H'. rewrite month_year_at_eq in H'. apply month_alt_range in H'.
    assert (Hn : Z.of_nat (List.length MONTHS) = 12) by reflexivity.
    rewrite Hn in H'. simpl fst. simpl snd. lia. }
  exact (search_from_prop (fun p => 1 <= fst p <= 12 /\ 2000 <= snd p <= 2099)
           month_year_at HP l None (mn, y) H).
Qed.

Lemma quarter_range (l : list ascii) (qn y : Z) :
  re_search quarter_at l = Some (qn, y) -> 1 <= qn <= 4 /\ 2000 <= y <= 2099.
Proof.
  apply (search_from_prop (fun p => 1 <= fst p <= 4 /\ 2000 <= snd p <= 2099) quarter_at).
  intros l' [qn' y'] H. unfold quarter_at in H.
  destruct l' as [|q [|d l1]]; try discriminate.
  destruct (Ascii.eqb q "q"%char && is_digit d && (1 <=? digit_value d)
            && (digit_value d <=? 4)) eqn:C; [|discriminate].
  apply andb_true_iff in C as [C C4]. apply andb_true_iff in C as [_ C1].
  apply Z.leb_le in C1, C4.
  match type of H with
  | match match_20dd ?l3 with _ => _ end = _ => destruct (match_20dd l3) as [[y'' l4]|] eqn:E
  end; [|discriminate].
  destruct (boundary_after l4); [|discriminate]. injection H as <- <-.
  apply match_20dd_range in E. simpl. lia.
Qed.


(** The resolver's keyword rules that come before the month-name rule. *)
Definition keyword_free (qlow : list ascii) : bool :=
  negb (contains (lit "today") qlow) && negb (contains (lit "yesterday") qlow)
  && negb (contains (lit "this week") qlow) && negb (contains (lit "last week") qlow)
  && negb (contains (lit "this month") qlow) && negb (contains (lit "last month") qlow).

Lemma keyword_free_spec (qlow : list ascii) :
  keyword_free qlow = true ->
  contains (lit "today") qlow = false /\ contains (lit "yesterday") qlow = false
  /\ contains (lit "this week") qlow = false /\ contains (lit "last week") qlow = false
  /\ contains (lit "this month") qlow = false /\ contains (lit "last month") qlow = false.
Proof.
  unfold keyword_free. intros H. repeat rewrite andb_true_iff in H.
  repeat rewrite negb_true_iff in H. tauto.
Qed.

(** A valid datetime is determined, as ordinal and time of day, by its
    microsecond count. *)
Lemma key_decomp (x : datetime) (o t : Z) :
  wf x = true -> 0 <= t < US_PER_DAY -> key x = o * US_PER_DAY + t ->
  toordinal x = o /\ time_of_day x = t.
Proof.
  intros W Ht K. pose proof (time_of_day_bounds x W) as Tx. rewrite key_time in K.
  assert (O : toordinal x = o).
  { rewrite <- (div_day (toordinal x) (time_of_day x) Tx). rewrite K. apply div_day. exact Ht. }
  split; [exact O|]. subst o. lia.
Qed.

(** [_week_bounds] keeps the time of day of its argument in the start, and
    from one second past midnight on its end falls 7 days after the start,
    one second earlier in the day. *)
Lemma week_bounds_time (dt s e : datetime) :
  wf dt = true -> _week_bounds dt = Ok (s, e) ->
  time_of_day s = time_of_day dt /\ toordinal s = toordinal dt - weekday dt
  /\ (1000000 <= time_of_day dt ->
      toordinal e = toordinal s + 7 /\ time_of_day e = time_of_day dt - 1000000).
Proof.
  intros W H. unfold _week_bounds, dt_sub in H. inv_bind H. injection H as -> ->.
  apply dt_add_inv in Ha as (Ws & Ks & _). apply dt_add_inv in Ha0 as (We & Ke & _).
  pose proof (time_of_day_bounds dt W) as Td.
  destruct (key_decomp s (toordinal dt - weekday dt) (time_of_day dt) Ws Td) as [Os Ts].
  { rewrite Ks, key_time. unfold timedelta, US_PER_DAY. ring. }
  split; [exact Ts|]. split; [exact Os|]. intros Ht.
  apply (key_decomp e (toordinal s + 7) (time_of_day dt - 1000000) We).
  - unfold US_PER_DAY in *. lia.
  - rewrite Ke, key_time, Ts. unfold timedelta, US_PER_DAY. ring.
Qed.

End BoundsFacts.

Module EntryFacts.
Import Cal DT Resolve ResolveFacts Search SearchFacts.

Lemma Zcmp_le_trans (x y z : Z) :
  (x ?= y) <> Gt -> (y ?= z) <> Gt -> (x ?= z) <> Gt.
Proof. rewrite !Z.compare_le_iff. lia. Qed.

Lemma lexc_le_trans (x y z : Z) (r1 r2 r3 : comparison) :
  (r1 <> Gt -> r2 <> Gt -> r3 <> Gt) ->
  lexc (x ?= y) r1 <> Gt -> lexc (y ?= z) r2 <> Gt -> lexc (x ?= z) r3 <> Gt.
Proof.
  intros Hr.
  destruct (Z.compare_spec x y); destruct (Z.compare_spec y z);
    destruct (Z.compare_spec x z); simpl; intros; first [lia | congruence | auto].
Qed.

(** [<=] on datetimes is transitive (on any field values). *)
Lemma dt_le_trans (x y z : datetime) :
  dt_le x y = true -> dt_le y z = true -> dt_le x z = true.
Proof.
  unfold dt_le. intros H1 H2.
  assert (A : dt_cmp x y <> Gt) by (destruct (dt_cmp x y); congruence).
  assert (B : dt_cmp y z <> Gt) by (destruct (dt_cmp y z); congruence).
  assert (C : dt_cmp x z <> Gt).
  { revert A B. unfold dt_cmp.
    repeat apply lexc_le_trans. apply Zcmp_le_trans. }
  destruct (dt_cmp x z); congruence.
Qed.

Section Keep.
Variable fi sp : list ascii -> result datetime.

Lemma filter_by_date_range_filter (l : list hit) (s e : datetime) :
  filter_by_date_range fi sp l s e = filter (fun h => keep_in_range fi sp s e (hit_meta h)) l.
Proof. induction l as [|h t IH]; simpl; [reflexivity|]. rewrite IH. reflexivity. Qed.

Lemma in_filter_by_date_range (l : list hit) (s e : datetime) (h : hit) :
  In h (filter_by_date_range fi sp l s e)
  <-> In h l /\ keep_in_range fi sp s e (hit_meta h) = true.
Proof. rewrite filter_by_date_range_filter. apply filter_In. Qed.

Lemma keep_in_range_spec (s e : datetime) (m : meta) :
  keep_in_range fi sp s e m = true
  <-> (exists md, _parse_iso fi sp (m_meeting_date m) = Some md
                  /\ dt_le s md = true /\ dt_le md e = true)
      \/ (exists vf, _parse_iso fi sp (m_valid_from m) = Some vf /\ dt_le vf e = true
           /\ dt_le s (match _parse_iso fi sp (m_valid_to m) with
                       | Some vt => vt | None => datetime_max end) = true).
Proof.
  unfold keep_in_range, _overlap.
  set (vt := match _parse_iso fi sp (m_valid_to m) with Some vt => vt | None => datetime_max end).
  destruct (_parse_iso fi sp (m_meeting_date m)) as [md|];
  destruct (_parse_iso fi sp (m_valid_from m)) as [vf|]; simpl;
  [destruct (dt_le s md) eqn:A1, (dt_le md e) eqn:A2, (dt_le vf e) eqn:A3, (dt_le s vt) eqn:A4
  |destruct (dt_le s md) eqn:A1, (dt_le md e) eqn:A2
  |destruct (dt_le vf e) eqn:A3, (dt_le s vt) eqn:A4
  |]; simpl; split; intros H;
  first [ reflexivity
        | left; eexists; split; [reflexivity | split; assumption]
        | right; eexists; split; [reflexivity | split; assumption]
        | discriminate
        | destruct H as [(x & Ex & B1 & B2)|(x & Ex & B1 & B2)];
          first [discriminate | injection Ex as <-; congruence] ].
Qed.

Lemma keep_widen (s e s' e' : datetime) (m : meta) :
  dt_le s' s = true -> dt_le e e' = true ->
  keep_in_range fi sp s e m = true -> keep_in_range fi sp s' e' m = true.
Proof.
  intros Hs He. rewrite !keep_in_range_spec.
  intros [(md & E & B1 & B2)|(vf & E & B1 & B2)].
  - left. exists md. split; [exact E|]. split; eapply dt_le_trans; eassumption.
  - right. exists vf. split; [exact E|]. split; eapply dt_le_trans; eassumption.
Qed.

Lemma keep_reversed (s e : datetime) (m : meta) :
  dt_le s e = false -> keep_in_range fi sp s e m = true ->
  exists vf, _parse_iso fi sp (m_valid_from m) = Some vf /\ dt_le vf e = true
    /\ dt_le s (match _parse_iso fi sp (m_valid_to m) with Some vt => vt | None => datetime_max end)
       = true.
Proof.
  intros Hr. rewrite keep_in_range_spec. intros [(md & E & B1 & B2)|H]; [|exact H].
  rewrite (dt_le_trans _ _ _ B1 B2) in Hr. discriminate.
Qed.

End Keep.

Lemma py_prefix_in {A} (l : list A) (k : Z) (x : A) : In x (py_prefix l k) -> In x l.
Proof.
  unfold py_prefix. intros H. destruct (0 <=? k);
  [ rewrite <- (firstn_skipn (Z.to_nat k) l)
  | rewrite <- (firstn_skipn (Z.to_nat (Z.of_nat (List.length l) + k)) l) ];
  apply in_or_app; left; exact H.
Qed.

Lemma py_prefix_length_min {A} (l : list A) (k : Z) :
  0 <= k -> Z.of_nat (List.length (py_prefix l k)) = Z.min k (Z.of_nat (List.length l)).
Proof.
  intros Hk. unfold py_prefix. rewrite (proj2 (Z.leb_le 0 k) Hk). rewrite length_firstn. lia.
Qed.

Lemma py_prefix_length_neg {A} (l : list A) (k : Z) :
  k < 0 -> Z.of_nat (List.length (py_prefix l k)) = Z.max 0 (Z.of_nat (List.length l) + k).
Proof.
  intros Hk. unfold py_prefix. rewrite (proj2 (Z.leb_gt 0 k) Hk). rewrite length_firstn. lia.
Qed.

(** A successful [rerank] permutes its input. *)
Lemma rerank_perm (fi sp : list ascii -> result datetime) (now : datetime) (metric : string)
    (results : list hit) (query : string) (pm pr : bool) (out : list hit) :
  rerank fi sp now metric results query pm pr = Ok out -> Permutation out results.
Proof.
  unfold rerank. intros H.
  destruct (rescore fi sp now metric (_query_tags query) pm pr results) as [l|] eqn:El;
    simpl in H; [|discriminate].
  injection H as <-. destruct (rescore_spec _ _ _ _ _ _ _ _ _ El) as [Hm _].
  rewrite <- Hm. apply Permutation_map. apply sort_desc_perm.
Qed.


(** The metadata [m] with its [meeting_date] set to [s]. *)
Definition with_meeting_date (m : meta) (s : string) : meta :=
  mkmeta (m_folder m) (m_tags m) (Some s) (m_valid_from m) (m_valid_to m).

Lemma str_eqb_true (x y : list ascii) : str_eqb x y = true <-> x = y.
Proof. unfold str_eqb. destruct (list_eq_dec ascii_dec x y); split; congruence. Qed.

Lemma mem_In (x : list ascii) (l : list (list ascii)) : mem x l = true <-> In x l.
Proof.
  unfold mem. rewrite existsb_exists. split.
  - intros (y & Hy & E). apply str_eqb_true in E. subst. exact Hy.
  - intros H. exists x. split; [exact H|]. apply str_eqb_true. reflexivity.
Qed.

Lemma dedup_In (x : list ascii) (l : list (list ascii)) : In x (dedup l) -> In x l.
Proof.
  induction l as [|y t IH]; simpl; [auto|].
  destruct (mem y t); [auto|]. intros [<-|H]; auto.
Qed.

Lemma dedup_NoDup (l : list (list ascii)) : NoDup (dedup l).
Proof.
  induction l as [|y t IH]; simpl; [constructor|].
  destruct (mem y t) eqn:E; [exact IH|]. constructor; [|exact IH].
  intros H. apply dedup_In, mem_In in H. congruence.
Qed.

Lemma is_upper_lower_char (c : ascii) : is_upper (lower_char c) = false.
Proof.
  destruct c as [b0 b1 b2 b3 b4 b5 b6 b7];
  destruct b0, b1, b2, b3, b4, b5, b6, b7; vm_compute; reflexivity.
Qed.

Lemma word_runs_chars (l cur : list ascii) :
  Forall (fun c => is_upper c = false) l ->
  Forall (fun c => is_word_char c = true /\ is_upper c = false) cur ->
  forall t, In t (word_runs l cur) ->
  Forall (fun c => is_word_char c = true /\ is_upper c = false) t.
Proof.
  revert cur. induction l as [|c l IH]; intros cur Hl Hc t Ht; simpl in Ht.
  - destruct cur as [|x r]; [destruct Ht|]. destruct Ht as [<-|[]]. apply Forall_rev. exact Hc.
  - inversion Hl as [|? ? Hu Hl']; subst.
    destruct (is_word_char c) eqn:Ew.
    + apply (IH (c :: cur)); [exact Hl' | constructor; [split; assumption | exact Hc] | exact Ht].
    + destruct cur as [|x r].
      * apply (IH []); [exact Hl' | constructor | exact Ht].
      * destruct Ht as [<-|Ht]; [apply Forall_rev; exact Hc|].
        apply (IH []); [exact Hl' | constructor | exact Ht].
Qed.

Section SearchUnfold.
Variable Index Vec : Type.
Variable load_resources : result (Index * (Z -> option meta)).
Variable embed_query : string -> result Vec.
Variable index_search : Index -> Vec -> Z -> list (Q * Z).

(** The hit [search] builds from one [(dist, idx)] pair of the index. *)
Definition hit_of (metadata : Z -> option meta) (p : Q * Z) : list hit :=
  let '(dist, idx) := p in
  if (idx =? -1)%Z then []
  else [(idx, dist, match metadata idx with Some m => m | None => empty_meta end)].

Lemma search_unfold (query : string) (k : Z) (index : Index) (md : Z -> option meta) (v : Vec) :
  load_resources = Ok (index, md) -> embed_query query = Ok v ->
  search Index Vec load_resources embed_query index_search query k
  = Ok (py_prefix (flat_map (hit_of md) (index_search index v (Z.max k 100))) k).
Proof.
  intros Hl He. unfold search. rewrite Hl. simpl. rewrite He. simpl.
  reflexivity.
Qed.

Lemma length_hits (md : Z -> option meta) (ps : list (Q * Z)) :
  List.length (flat_map (hit_of md) ps)
  = List.length (filter (fun p => negb (snd p =? -1)) ps).
Proof.
  induction ps as [|[d i] t IH]; simpl; [reflexivity|].
  destruct (i =? -1); simpl; rewrite IH; reflexivity.
Qed.

End SearchUnfold.

End EntryFacts.


(** * Claims *)

Module Claims.
Import Cal DT Resolve ResolveFacts Search SearchFacts.

Definition wednesday_afternoon : datetime := mkdatetime 2025 10 15 14 30 0 0.

(** C2 (code bug): the week window keeps the time of day of [now].  For a
    query containing "this week" but neither "today" nor "yesterday", and a
    valid [now] at least two weeks away from the limits of [datetime], the
    window starts on the Monday of [now]'s week at [now]'s time of day (so
    at 00:00:00 only when [now] is at midnight), and once [now] is at least
    one second past midnight it ends on the following Monday, one second
    earlier in the day than [now], instead of on Sunday at 23:59:59.  The
    same holds for "last week" (and no "this week") with [now] moved back 7
    days. *)
Theorem C2_week_window_keeps_time (q : string) (now : datetime) :
  wf now = true -> 14 <= toordinal now <= MAXORDINAL - 7 ->
  contains (lit "today") (lower (list_ascii_of_string q)) = false ->
  contains (lit "yesterday") (lower (list_ascii_of_string q)) = false ->
  (contains (lit "this week") (lower (list_ascii_of_string q)) = true ->
   exists s e, resolve_date_window_from_query q now = Ok (Some (s, e))
     /\ weekday s = 0 /\ toordinal s = toordinal now - weekday now
     /\ time_of_day s = time_of_day now
     /\ (1000000 <= time_of_day now ->
         weekday e = 0 /\ toordinal e = toordinal s + 7
         /\ time_of_day e = time_of_day now - 1000000))
  /\
  (contains (lit "this week") (lower (list_ascii_of_string q)) = false ->
   contains (lit "last week") (lower (list_ascii_of_string q)) = true ->
   exists s e, resolve_date_window_from_query q now = Ok (Some (s, e))
     /\ weekday s = 0 /\ toordinal s = toordinal now - 7 - weekday now
     /\ time_of_day s = time_of_day now
     /\ (1000000 <= time_of_day now ->
         weekday e = 0 /\ toordinal e = toordinal s + 7
         /\ time_of_day e = time_of_day now - 1000000)).
Proof.
  intros W Hr Ht Hy. unfold resolve_date_window_from_query. cbv zeta.
  rewrite Ht, Hy. split.
  - intros Hw. rewrite Hw.
    destruct (week_bounds_spec now W ltac:(lia)) as (s & e & E & _ & Hd & Ho & _).
    destruct (BoundsFacts.week_bounds_time now s e W E) as (Ts & _ & He).
    exists s, e. rewrite E. split; [reflexivity|].
    split; [exact Hd|]. split; [exact Ho|]. split; [exact Ts|].
    intros H1. destruct (He H1) as [Oe Te]. split; [|split; [exact Oe|exact Te]].
    unfold weekday. rewrite Oe.
    replace (toordinal s + 7 + 6) with (toordinal s + 6 + 1 * 7) by ring.
    rewrite Z.mod_add by lia. exact Hd.
  - intros Hw Hl. rewrite Hw, Hl. unfold dt_sub. rewrite timedelta_days.
    replace (- (7 * US_PER_DAY)) with ((-7) * US_PER_DAY) by ring.
    destruct (shift_days now (-7) W ltac:(unfold MAXORDINAL in *; lia))
      as (l & El & Wl & Ol & Kl).
    rewrite El. simpl.
    assert (Tl : time_of_day l = time_of_day now).
    { pose proof (time_of_day_bounds now W) as Tn.
      apply (BoundsFacts.key_decomp l (toordinal now + -7) (time_of_day now) Wl Tn).
      rewrite Kl, key_time. ring. }
    destruct (week_bounds_spec l Wl ltac:(unfold MAXORDINAL in *; lia))
      as (s & e & E & _ & Hd & Ho & _).
    destruct (BoundsFacts.week_bounds_time l s e Wl E) as (Ts & _ & He). rewrite Tl in Ts, He.
    exists s, e. rewrite E. split; [reflexivity|].
    split; [exact Hd|]. split.
    { rewrite Ho. unfold weekday at 1. rewrite Ol.
      replace (toordinal now + -7 + 6) with (toordinal now + 6 + (-1) * 7) by ring.
      rewrite Z.mod_add by lia. unfold weekday. lia. }
    split; [exact Ts|].
    intros H1. destruct (He H1) as [Oe Te]. split; [|split; [exact Oe|exact Te]].
    unfold weekday. rewrite Oe.
    replace (toordinal s + 7 + 6) with (toordinal s + 6 + 1 * 7) by ring.
    rewrite Z.mod_add by lia. exact Hd.
Qed.

(** At 14:30 on Wednesday 2025-10-15, "this week" starts on Monday at 14:30
    and ends on the following Monday at 14:29:59. *)
Lemma C2_week_window_keeps_time_witness :
  resolve_date_window_from_query "this week" wednesday_afternoon
    = Ok (Some (mkdatetime 2025 10 13 14 30 0 0, mkdatetime 2025 10 20 14 29 59 0))
  /\ exists s e,
       resolve_date_window_from_query "this week" wednesday_afternoon = Ok (Some (s, e))
       /\ weekday s = 0
       /\ toordinal s = toordinal wednesday_afternoon - weekday wednesday_afternoon
       /\ time_of_day s = time_of_day wednesday_afternoon
       /\ (1000000 <= time_of_day wednesday_afternoon ->
           weekday e = 0 /\ toordinal e = toordinal s + 7
           /\ time_of_day e = time_of_day wednesday_afternoon - 1000000).
Proof.
  split; [vm_compute; reflexivity|].
  apply (proj1 (C2_week_window_keeps_time "this week" wednesday_afternoon
                  ltac:(vm_compute; reflexivity) ltac:(vm_compute; split; discriminate)
                  ltac:(vm_compute; reflexivity) ltac:(vm_compute; reflexivity))).
  vm_compute. reflexivity.
Defined.

(** C3 (counterexample): "from 2025-02-01 to 2025-01-01" yields a window
    whose start is after its end. *)
Lemma C3_reversed_range_counterexample :
  exists s e,
    resolve_date_window_from_query "from 2025-02-01 to 2025-01-01" wednesday_afternoon
      = Ok (Some (s, e))
    /\ dt_le s e = false.
Proof. eexists _, _. split; vm_compute; reflexivity. Qed.

(** C3 (amended): whenever the resolver returns a window [(s, e)], either
    [s <= e], or the window is the one of the literal "from <date1> to
    <date2>" rule: [s] is [date1] at 00:00:00 and [e] is [date2] at
    23:59:59, whatever the order of the two dates. *)
Theorem C3_resolve_window_ordered (q : string) (now s e : datetime) :
  resolve_date_window_from_query q now = Ok (Some (s, e)) ->
  dt_le s e = true
  \/ exists g1 g2 e0,
       re_search from_to_at (lower (list_ascii_of_string q)) = Some (g1, g2)
       /\ fromisoformat_date g1 = Ok s /\ fromisoformat_date g2 = Ok e0
       /\ replace_time e0 23 59 59 (microsecond e0) = Ok e.
Proof.
  unfold resolve_date_window_from_query. cbv zeta. intros H.
  destruct (contains (lit "today") _).
  { left. eapply day_window_ordered; exact H. }
  destruct (contains (lit "yesterday") _).
  { left. inv_bind H. eapply day_window_ordered; exact H. }
  destruct (contains (lit "this week") _).
  { left. inv_bind H. injection H as ->. eapply week_bounds_ordered; exact Ha. }
  destruct (contains (lit "last week") _).
  { left. inv_bind H. injection H as ->. eapply week_bounds_ordered; exact Ha0. }
  destruct (contains (lit "this month") _).
  { left. inv_bind H. injection H as ->. eapply month_bounds_ordered; exact Ha. }
  destruct (contains (lit "last month") _).
  { left. inv_bind H. injection H as ->. eapply month_bounds_ordered; exact Ha2. }
  destruct (re_search month_year_at _) as [[mn yr]|].
  { left. inv_bind H. injection H as <- <-.
    destruct (mn =? 12); inv_bind Ha0;
      (apply (before_next_day_after _ a1 _);
       [ apply datetime_new_inv in Ha as [_ W]; exact W
       | apply datetime_new_inv in Ha1 as [_ W]; exact W
       | apply datetime_new_inv in Ha as [-> _]; reflexivity
       | eapply first_of_month_ord_lt; [exact Ha | exact Ha1 | lia]
       | exact Ha0 ]). }
  destruct (re_search quarter_at _) as [[qn yr]|].
  { left. inv_bind H. injection H as ->. eapply quarter_bounds_ordered; exact Ha. }
  destruct (re_search from_to_at _) as [[g1 g2]|]; [|discriminate].
  right. inv_bind H. injection H as <- <-. exists g1, g2, a0. auto.
Qed.

Lemma C3_resolve_window_ordered_witness :
  resolve_date_window_from_query "Q3 2025" wednesday_afternoon
    = Ok (Some (mkdatetime 2025 7 1 0 0 0 0, mkdatetime 2025 9 30 23 59 59 0))
  /\ (dt_le (mkdatetime 2025 7 1 0 0 0 0) (mkdatetime 2025 9 30 23 59 59 0) = true
      \/ exists g1 g2 e0,
           re_search from_to_at (lower (list_ascii_of_string "Q3 2025")) = Some (g1, g2)
           /\ fromisoformat_date g1 = Ok (mkdatetime 2025 7 1 0 0 0 0)
           /\ fromisoformat_date g2 = Ok e0
           /\ replace_time e0 23 59 59 (microsecond e0)
              = Ok (mkdatetime 2025 9 30 23 59 59 0)).
Proof.
  split; [vm_compute; reflexivity|].
  apply (C3_resolve_window_ordered "Q3 2025" wednesday_afternoon).
  vm_compute. reflexivity.
Defined.

(** C4: the literal range rule hands the matched text to
    [datetime.fromisoformat] unguarded, so a well-shaped but invalid date
    raises [ValueError] out of the resolver, whatever [now] is. *)
Theorem C4_resolve_raises_on_invalid_date (now : datetime) :
  resolve_date_window_from_query "from 2025-13-01 to 2025-12-31" now = Err ValueError.
Proof. vm_compute. reflexivity. Qed.

(** A concrete instantiation of the search pipeline: the date parsers of
    the standard library on the [YYYY-MM-DD] form, and a small index. *)
Definition meeting_2025 : meta :=
  mkmeta (Some "Meetings"%string) (Some ["budget"%string; EmptyString]) (Some "2025-01-01"%string) None None.
Definition reminder_open : meta :=
  mkmeta (Some "reminders"%string) None None (Some "2025-01-10"%string) None.
Definition reminder_no_start : meta :=
  mkmeta (Some "reminders"%string) None None None (Some "2025-12-31"%string).
Definition broken_dates : meta :=
  mkmeta None None (Some "next tuesday"%string) (Some "soon"%string) (Some "2025-02-30"%string).

Definition sample_hits : list hit :=
  [(7, 3 # 4, meeting_2025); (5, 3 # 4, empty_meta); (3, 1 # 2, reminder_no_start);
   (9, 1 # 2, reminder_open); (4, 1 # 2, broken_dates)].

Definition sample_metadata (i : Z) : option meta :=
  match i with
  | 3 => Some reminder_no_start | 7 => Some meeting_2025 | 9 => Some reminder_open
  | 4 => Some broken_dates | _ => None
  end.

Definition sample_load : result (unit * (Z -> option meta)) := Ok (tt, sample_metadata).
Definition sample_embed (q : string) : result unit := Ok tt.
Definition sample_index_search (i : unit) (v : unit) (n : Z) : list (Q * Z) :=
  [(3 # 4, 7); (3 # 4, 5); (1 # 2, 3); (1 # 2, 9); (1 # 2, 4); (0 # 1, -1)].

Definition january_2025 : datetime * datetime :=
  (mkdatetime 2025 1 1 0 0 0 0, mkdatetime 2025 1 31 23 59 59 0).

(** C1: the recency bonus is [toordinal / 365000], and it is what
    [prefer_recent] adds to the score of a hit with an event date.  For
    any valid event date from the year 2000 on it exceeds 2, so it is
    larger than the category bonuses (0.2, 0.15) and the validity bonus
    and penalty (0.2, 0.4). *)
Theorem C1_recency_bonus_dominates (fi sp : list ascii -> result datetime)
    (now : datetime) (metric : string) (qtags : list (list ascii)) (pm : bool)
    (h : hit) (d : datetime) (s0 s1 : Q) :
  _parse_iso fi sp (m_meeting_date (hit_meta h)) = Some d ->
  wf d = true -> 2000 <= year d ->
  score_hit fi sp now metric qtags pm false h = Ok s0 ->
  score_hit fi sp now metric qtags pm true h = Ok s1 ->
  (s1 - s0 == meet_bonus true (Some d))%Q /\ (2 < s1 - s0)%Q.
Proof.
  intros Hp W Hy H0 H1. destruct h as [[rid dist] m]. simpl in Hp.
  unfold score_hit in H0, H1. rewrite Hp in H0, H1.
  destruct (if String.eqb metric "l2" then _ else _) as [b|e]; simpl in H0, H1;
    [|discriminate].
  injection H0 as <-. injection H1 as <-.
  assert (E : (b + tag_bonus qtags m + folder_bonus pm (meta_folder m)
               + meet_bonus true (Some d) + validity_bonus fi sp now (meta_folder m) m
               - (b + tag_bonus qtags m + folder_bonus pm (meta_folder m)
                  + meet_bonus false (Some d) + validity_bonus fi sp now (meta_folder m) m)
               == meet_bonus true (Some d))%Q) by (simpl; ring).
  split; [exact E|]. rewrite E.
  assert (Ho : 730119 < toordinal d).
  { apply wf_spec in W. destruct W as (_ & Hm & Hd & _). unfold toordinal.
    pose proof (ymd2ord_in_year _ _ _ Hm Hd).
    pose proof (days_before_year_mono 2000 (year d - 2000) ltac:(lia)) as Hmono.
    replace (2000 + (year d - 2000)) with (year d) in Hmono by ring.
    assert (_days_before_year 2000 = 730119) by (vm_compute; reflexivity). lia. }
  unfold meet_bonus, Qdiv, Qlt, Qmult, Qinv, inject_Z. simpl. lia.
Qed.

Lemma C1_recency_bonus_dominates_witness :
  exists s0 s1,
    score_hit fromisoformat_date fromisoformat_date wednesday_afternoon "ip" [] true false
      (7, 3 # 4, meeting_2025) = Ok s0
    /\ score_hit fromisoformat_date fromisoformat_date wednesday_afternoon "ip" [] true true
      (7, 3 # 4, meeting_2025) = Ok s1
    /\ (s1 - s0 == meet_bonus true (Some (mkdatetime 2025 1 1 0 0 0 0)))%Q
    /\ (2 < s1 - s0)%Q.
Proof.
  eexists. eexists. split; [cbv; reflexivity|]. split; [cbv; reflexivity|].
  apply (C1_recency_bonus_dominates fromisoformat_date fromisoformat_date
           wednesday_afternoon "ip" [] true (7, 3 # 4, meeting_2025)
           (mkdatetime 2025 1 1 0 0 0 0));
    [vm_compute; reflexivity | vm_compute; reflexivity | vm_compute; discriminate
    | cbv; reflexivity | cbv; reflexivity].
Defined.

(** The temporal filter in the words of its contract: an event date in the
    window, or a [valid_from] with [valid_from <= end] and
    [start <= valid_to], an absent or unparsable [valid_to] standing for
    +infinity. *)
Definition keep_by_contract (fi sp : list ascii -> result datetime)
    (start end_ : datetime) (m : meta) : bool :=
  match _parse_iso fi sp (m_meeting_date m) with
  | Some md => dt_le start md && dt_le md end_
  | None => false
  end
  || match _parse_iso fi sp (m_valid_from m) with
     | Some vf => dt_le vf end_
                  && match _parse_iso fi sp (m_valid_to m) with
                     | Some vt => dt_le start vt
                     | None => true
                     end
     | None => false
     end.

(** C5: for a valid window start (and [start <= end]), [filter_by_date_range]
    keeps exactly the candidates the contract keeps, in their order; a
    candidate with no event date in the window and no parsable [valid_from]
    is dropped. *)
Theorem C5_filter_by_date_range_contract (fi sp : list ascii -> result datetime)
    (results : list hit) (start end_ : datetime) :
  wf start = true -> dt_le start end_ = true ->
  filter_by_date_range fi sp results start end_
    = filter (fun h => keep_by_contract fi sp start end_ (hit_meta h)) results
  /\ forall h,
       match _parse_iso fi sp (m_meeting_date (hit_meta h)) with
       | Some md => dt_le start md && dt_le md end_
       | None => false
       end = false ->
       _parse_iso fi sp (m_valid_from (hit_meta h)) = None ->
       ~ In h (filter_by_date_range fi sp results start end_).
Proof.
  intros W _.
  assert (Hk : forall m, keep_in_range fi sp start end_ m = keep_by_contract fi sp start end_ m).
  { intros m. unfold keep_in_range, keep_by_contract, _overlap.
    destruct (match _parse_iso fi sp (m_meeting_date m) with
              | Some md => _ | None => false end); [reflexivity|]. simpl.
    destruct (_parse_iso fi sp (m_valid_from m)); [|reflexivity].
    destruct (_parse_iso fi sp (m_valid_to m)); [reflexivity|].
    rewrite (dt_le_max start W). reflexivity. }
  assert (Hf : filter_by_date_range fi sp results start end_
               = filter (fun h => keep_by_contract fi sp start end_ (hit_meta h)) results).
  { induction results as [|h rest IH]; simpl; [reflexivity|].
    rewrite Hk, IH. reflexivity. }
  split; [exact Hf|].
  intros h Hmd Hvf Hin. rewrite Hf in Hin. apply filter_In in Hin as [_ Hin].
  unfold keep_by_contract in Hin. rewrite Hmd, Hvf in Hin. discriminate.
Qed.

Lemma C5_filter_by_date_range_contract_witness :
  wf (fst january_2025) = true /\ dt_le (fst january_2025) (snd january_2025) = true
  /\ filter_by_date_range fromisoformat_date fromisoformat_date sample_hits
       (fst january_2025) (snd january_2025)
     = filter (fun h => keep_by_contract fromisoformat_date fromisoformat_date
                          (fst january_2025) (snd january_2025) (hit_meta h)) sample_hits
  /\ filter_by_date_range fromisoformat_date fromisoformat_date sample_hits
       (fst january_2025) (snd january_2025)
     = [(7, 3 # 4, meeting_2025); (9, 1 # 2, reminder_open)].
Proof.
  split; [vm_compute; reflexivity|]. split; [vm_compute; reflexivity|].
  split; [|vm_compute; reflexivity].
  apply (C5_filter_by_date_range_contract fromisoformat_date fromisoformat_date sample_hits
           (fst january_2025) (snd january_2025));
    vm_compute; reflexivity.
Defined.

(** C6: for [k >= 1], every result list of [search], [search_meetings] and
    [search_in_date_window] has at most [k] elements, whatever the index
    returns. *)
Theorem C6_results_at_most_k (fi sp : list ascii -> result datetime) (now : datetime)
    (metric : string) (Index Vec : Type) (load : result (Index * (Z -> option meta)))
    (embed : string -> result Vec) (isearch : Index -> Vec -> Z -> list (Q * Z))
    (query : string) (start end_ : datetime) (k : Z) :
  1 <= k ->
  (forall l, search Index Vec load embed isearch query k = Ok l ->
             Z.of_nat (List.length l) <= k)
  /\ (forall l, search_meetings fi sp now metric Index Vec load embed isearch query k = Ok l ->
                Z.of_nat (List.length l) <= k)
  /\ (forall l, search_in_date_window fi sp now metric Index Vec load embed isearch
                  query start end_ k = Ok l ->
                Z.of_nat (List.length l) <= k).
Proof.
  intros Hk. split; [|split]; intros l H.
  - unfold search in H. destruct load as [[index metadata]|]; simpl in H; [|discriminate].
    destruct (embed query); simpl in H; [|discriminate].
    injection H as <-. apply py_prefix_length. lia.
  - unfold search_meetings in H.
    destruct (search _ _ _ _ _ _ _); simpl in H; [|discriminate].
    destruct (rerank _ _ _ _ _ _ _ _); simpl in H; [|discriminate].
    injection H as <-. apply py_prefix_length. lia.
  - unfold search_in_date_window in H.
    destruct (search _ _ _ _ _ _ _); simpl in H; [|discriminate].
    destruct (filter_by_date_range _ _ _ _ _); [injection H as <-; simpl; lia|].
    destruct (rerank_for_recency _ _ _ _ _ _); simpl in H; [|discriminate].
    injection H as <-. apply py_prefix_length. lia.
Qed.

Lemma C6_results_at_most_k_witness :
  1 <= 2
  /\ search unit unit sample_load sample_embed sample_index_search "budget" 2
     = Ok [(7, 3 # 4, meeting_2025); (5, 3 # 4, empty_meta)]
  /\ (forall l, search unit unit sample_load sample_embed sample_index_search "budget" 2 = Ok l ->
                Z.of_nat (List.length l) <= 2).
Proof.
  split; [lia|]. split; [vm_compute; reflexivity|].
  apply (proj1 (C6_results_at_most_k fromisoformat_date fromisoformat_date wednesday_afternoon
                  "ip" unit unit sample_load sample_embed sample_index_search "budget"
                  (fst january_2025) (snd january_2025) 2 ltac:(lia))).
Defined.

(** C7: when the over-fetched pool was retrieved and no candidate of it
    survives the temporal filter, [search_in_date_window] returns the empty
    list (no exception, no fallback). *)
Theorem C7_empty_window_returns_empty (fi sp : list ascii -> result datetime)
    (now : datetime) (metric : string) (Index Vec : Type)
    (load : result (Index * (Z -> option meta))) (embed : string -> result Vec)
    (isearch : Index -> Vec -> Z -> list (Q * Z)) (query : string)
    (start end_ : datetime) (k : Z) (pool : list hit) :
  search Index Vec load embed isearch query (Z.max k 200) = Ok pool ->
  filter_by_date_range fi sp pool start end_ = [] ->
  search_in_date_window fi sp now metric Index Vec load embed isearch query start end_ k = Ok [].
Proof.
  intros Hs Hf. unfold search_in_date_window. rewrite Hs. simpl. rewrite Hf. reflexivity.
Qed.

Lemma C7_empty_window_returns_empty_witness :
  search unit unit sample_load sample_embed sample_index_search "budget" (Z.max 5 200)
    = Ok sample_hits
  /\ filter_by_date_range fromisoformat_date fromisoformat_date sample_hits
       (mkdatetime 2024 1 1 0 0 0 0) (mkdatetime 2024 1 31 23 59 59 0) = []
  /\ search_in_date_window fromisoformat_date fromisoformat_date wednesday_afternoon "ip"
       unit unit sample_load sample_embed sample_index_search "budget"
       (mkdatetime 2024 1 1 0 0 0 0) (mkdatetime 2024 1 31 23 59 59 0) 5 = Ok [].
Proof.
  split; [vm_compute; reflexivity|]. split; [vm_compute; reflexivity|].
  apply (C7_empty_window_returns_empty fromisoformat_date fromisoformat_date
           wednesday_afternoon "ip" unit unit sample_load sample_embed sample_index_search
           "budget" (mkdatetime 2024 1 1 0 0 0 0) (mkdatetime 2024 1 31 23 59 59 0) 5
           sample_hits);
    vm_compute; reflexivity.
Defined.

(** The score [rerank] computes for a hit (where [rerank] succeeded, every
    hit's score is defined). *)
Definition score_of (fi sp : list ascii -> result datetime) (now : datetime)
    (metric query : string) (pm pr : bool) (h : hit) : Q :=
  match score_hit fi sp now metric (_query_tags query) pm pr h with
  | Ok s => s
  | Err _ => 0
  end.

(** C8: with [now] and the configuration fixed, a successful [rerank]
    returns its hits ordered by non-increasing score; the hits of any one
    score value appear in their input order; and reranking the output with
    the same query and flags returns it unchanged. *)
Theorem C8_rerank_sorted_stable_idempotent (fi sp : list ascii -> result datetime)
    (now : datetime) (metric : string) (results : list hit) (query : string)
    (pm pr : bool) (out : list hit) :
  rerank fi sp now metric results query pm pr = Ok out ->
  Sorted (fun a b => (score_of fi sp now metric query pm pr b
                      <= score_of fi sp now metric query pm pr a)%Q) out
  /\ (forall v, filter (fun h => Qeq_bool (score_of fi sp now metric query pm pr h) v) out
                = filter (fun h => Qeq_bool (score_of fi sp now metric query pm pr h) v) results)
  /\ rerank fi sp now metric out query pm pr = Ok out.
Proof.
  unfold rerank. intros H.
  destruct (rescore fi sp now metric (_query_tags query) pm pr results) as [l|] eqn:El;
    simpl in H; [|discriminate].
  injection H as <-. destruct (rescore_spec _ _ _ _ _ _ _ _ _ El) as [Hm Hf].
  assert (Hsf : Forall (scored_ok fi sp now metric (_query_tags query) pm pr) (sort_desc l))
    by (apply (Forall_perm _ _ _ (sort_desc_perm l) Hf)).
  assert (Hkey : forall p, scored_ok fi sp now metric (_query_tags query) pm pr p ->
                 score_of fi sp now metric query pm pr (snd p) = fst p)
    by (intros p Hp; unfold score_of; rewrite Hp; reflexivity).
  split; [|split].
  - apply (Sorted_map desc _ snd (scored_ok fi sp now metric (_query_tags query) pm pr));
      [| exact Hsf | apply sort_desc_sorted].
    intros x y Hx Hy Hd. rewrite (Hkey x Hx), (Hkey y Hy). exact Hd.
  - intros v. rewrite <- Hm. rewrite !filter_map_snd. f_equal.
    assert (Hext : forall l', Forall (scored_ok fi sp now metric (_query_tags query) pm pr) l' ->
              filter (fun p => Qeq_bool (score_of fi sp now metric query pm pr (snd p)) v) l'
              = filter (score_is v) l').
    { intros l' Hl'. apply filter_ext_in. intros p Hp. unfold score_is.
      rewrite (Hkey p); [reflexivity|]. eapply Forall_forall; eassumption. }
    rewrite (Hext _ Hsf), (Hext _ Hf). apply sort_desc_filter.
  - rewrite (rescore_pairs _ _ _ _ _ _ _ _ Hsf). simpl.
    rewrite (sort_desc_sorted_id _ (sort_desc_sorted l)). reflexivity.
Qed.

Lemma C8_rerank_sorted_stable_idempotent_witness :
  rerank fromisoformat_date fromisoformat_date wednesday_afternoon "ip" sample_hits
    "budget reminders" true true
  = Ok [(7, 3 # 4, meeting_2025); (3, 1 # 2, reminder_no_start); (9, 1 # 2, reminder_open);
        (5, 3 # 4, empty_meta); (4, 1 # 2, broken_dates)]
  /\ rerank fromisoformat_date fromisoformat_date wednesday_afternoon "ip"
       [(7, 3 # 4, meeting_2025); (3, 1 # 2, reminder_no_start); (9, 1 # 2, reminder_open);
        (5, 3 # 4, empty_meta); (4, 1 # 2, broken_dates)]
       "budget reminders" true true
     = Ok [(7, 3 # 4, meeting_2025); (3, 1 # 2, reminder_no_start); (9, 1 # 2, reminder_open);
           (5, 3 # 4, empty_meta); (4, 1 # 2, broken_dates)].
Proof.
  split; [vm_compute; reflexivity|].
  apply (C8_rerank_sorted_stable_idempotent fromisoformat_date fromisoformat_date
           wednesday_afternoon "ip" sample_hits "budget reminders" true true).
  vm_compute. reflexivity.
Defined.

(** C9: a successful [rerank] returns a permutation of its input hits. *)
Theorem C9_rerank_permutation (fi sp : list ascii -> result datetime) (now : datetime)
    (metric : string) (results : list hit) (query : string) (pm pr : bool)
    (out : list hit) :
  rerank fi sp now metric results query pm pr = Ok out -> Permutation out results.
Proof.
  unfold rerank. intros H.
  destruct (rescore fi sp now metric (_query_tags query) pm pr results) as [l|] eqn:El;
    simpl in H; [|discriminate].
  injection H as <-. destruct (rescore_spec _ _ _ _ _ _ _ _ _ El) as [Hm _].
  rewrite <- Hm. apply Permutation_map. apply sort_desc_perm.
Qed.

Lemma C9_rerank_permutation_witness :
  rerank fromisoformat_date fromisoformat_date wednesday_afternoon "l2" sample_hits
    "budget" false true
  = Ok [(7, 3 # 4, meeting_2025); (3, 1 # 2, reminder_no_start); (9, 1 # 2, reminder_open);
        (4, 1 # 2, broken_dates); (5, 3 # 4, empty_meta)]
  /\ Permutation [(7, 3 # 4, meeting_2025); (3, 1 # 2, reminder_no_start); (9, 1 # 2, reminder_open);
                  (4, 1 # 2, broken_dates); (5, 3 # 4, empty_meta)] sample_hits.
Proof.
  split; [vm_compute; reflexivity|].
  apply (C9_rerank_permutation fromisoformat_date fromisoformat_date wednesday_afternoon
           "l2" sample_hits "budget" false true).
  vm_compute. reflexivity.
Defined.

(** A record with its missing folder read as the empty string, its missing
    tags as the empty list, and each date string that does not parse
    dropped. *)
Definition normalize_date (fi sp : list ascii -> result datetime) (s : option string)
    : option string :=
  match _parse_iso fi sp s with Some _ => s | None => None end.

Definition normalize_meta (fi sp : list ascii -> result datetime) (m : meta) : meta :=
  mkmeta (Some (match m_folder m with Some f => f | None => EmptyString end))
         (Some (match m_tags m with Some t => t | None => [] end))
         (normalize_date fi sp (m_meeting_date m))
         (normalize_date fi sp (m_valid_from m))
         (normalize_date fi sp (m_valid_to m)).

Definition normalize_hit (fi sp : list ascii -> result datetime) (h : hit) : hit :=
  let '(rid, dist, m) := h in (rid, dist, normalize_meta fi sp m).

(** C10: [rerank] does not raise on any metadata (given distances that the
    metric admits: non-negative for "l2"); [filter_by_date_range] is a total
    function; and both treat a missing folder as the empty string, missing tags as the
    empty set, and an absent or unparsable date string as an absent date. *)
Theorem C10_metadata_total (fi sp : list ascii -> result datetime) (now : datetime)
    (metric : string) (results : list hit) (query : string) (pm pr : bool) :
  (String.eqb metric "l2" = true -> Forall (fun h => (0 <= hit_dist h)%Q) results) ->
  (exists out, rerank fi sp now metric results query pm pr = Ok out)
  /\ (forall h, score_hit fi sp now metric (_query_tags query) pm pr h
                = score_hit fi sp now metric (_query_tags query) pm pr (normalize_hit fi sp h))
  /\ (forall start end_,
        filter_by_date_range fi sp results start end_
        = filter (fun h => keep_in_range fi sp start end_ (hit_meta (normalize_hit fi sp h)))
                 results).
Proof.
  intros Hd.
  assert (Hn : forall s, _parse_iso fi sp (normalize_date fi sp s) = _parse_iso fi sp s).
  { intros s. unfold normalize_date. destruct (_parse_iso fi sp s) eqn:E; [exact E|].
    reflexivity. }
  split; [|split].
  - destruct (rescore_total fi sp now metric (_query_tags query) pm pr results Hd) as [l El].
    unfold rerank. rewrite El. simpl. eauto.
  - intros [[rid dist] m]. unfold score_hit. simpl. rewrite !Hn.
    unfold validity_bonus, tag_bonus, meta_tags, meta_folder. simpl. rewrite !Hn.
    reflexivity.
  - intros start end_. induction results as [|[[rid dist] m] rest IH]; simpl; [reflexivity|].
    unfold keep_in_range at 2. simpl. rewrite !Hn.
    rewrite IH; [reflexivity|].
    intros E. specialize (Hd E). inversion Hd; assumption.
Qed.

Lemma C10_metadata_total_witness :
  (String.eqb "ip" "l2" = true -> Forall (fun h => (0 <= hit_dist h)%Q) sample_hits)
  /\ (exists out, rerank fromisoformat_date fromisoformat_date wednesday_afternoon "ip"
                    sample_hits "budget" true false = Ok out).
Proof.
  split; [discriminate|].
  apply (C10_metadata_total fromisoformat_date fromisoformat_date wednesday_afternoon "ip"
           sample_hits "budget" true false).
  discriminate.
Defined.

End Claims.

(** * Further properties of the code *)

Module Extras.
Import Cal DT Resolve ResolveFacts Search SearchFacts CalFacts BoundsFacts EntryFacts Answer Claims.

(** X1: a query free of the day, week and month keywords whose lowercase text
    contains a month name followed by a year [20dd] gets the whole of that
    month: from the 1st at 00:00:00 to its last day at 23:59:59 (in December, to
    December 31). *)
Theorem month_name_window (q : string) (now : datetime) (mn yr : Z) :
  keyword_free (lower (list_ascii_of_string q)) = true ->
  re_search month_year_at (lower (list_ascii_of_string q)) = Some (mn, yr) ->
  resolve_date_window_from_query q now
  = Ok (Some (mkdatetime yr mn 1 0 0 0 0,
              mkdatetime yr mn (_days_in_month yr mn) 23 59 59 0)).
Proof.
  intros Hk Hm. apply keyword_free_spec in Hk as (H1 & H2 & H3 & H4 & H5 & H6).
  pose proof (month_year_range _ _ _ Hm) as [Rm Ry].
  unfold resolve_date_window_from_query. cbv zeta.
  rewrite H1, H2, H3, H4, H5, H6, Hm.
  rewrite (datetime_new_ok yr mn 1 0 0 0 0) by (apply midnight_first_wf; lia).
  simpl bind.
  destruct (Z.eqb_spec mn 12) as [E|E].
  - rewrite (datetime_new_ok (yr + 1) 1 1 0 0 0 0) by (apply midnight_first_wf; lia).
    simpl bind. rewrite (end_of_month yr mn _ ltac:(lia) Rm).
    + reflexivity.
    + rewrite E. reflexivity.
    + apply midnight_first_wf; lia.
  - rewrite (datetime_new_ok yr (mn + 1) 1 0 0 0 0) by (apply midnight_first_wf; lia).
    simpl bind. rewrite (end_of_month yr mn _ ltac:(lia) Rm).
    + reflexivity.
    + rewrite (proj2 (Z.eqb_neq _ _) E). reflexivity.
    + apply midnight_first_wf; lia.
Qed.

Lemma month_name_window_witness :
  resolve_date_window_from_query "Meetings in September 2025?" wednesday_afternoon
  = Ok (Some (mkdatetime 2025 9 1 0 0 0 0,
              mkdatetime 2025 9 (_days_in_month 2025 9) 23 59 59 0)).
Proof.
  apply (month_name_window "Meetings in September 2025?" wednesday_afternoon 9 2025);
    vm_compute; reflexivity.
Defined.

(** X2: a query free of the earlier keywords and of a month name with year,
    containing a quarter reference [q1]..[q4] with a year [20dd], gets the whole
    quarter: from the 1st of its first month at 00:00:00 to the last day of its
    third month at 23:59:59. *)
Theorem quarter_window (q : string) (now : datetime) (qn yr : Z) :
  keyword_free (lower (list_ascii_of_string q)) = true ->
  re_search month_year_at (lower (list_ascii_of_string q)) = None ->
  re_search quarter_at (lower (list_ascii_of_string q)) = Some (qn, yr) ->
  resolve_date_window_from_query q now
  = Ok (Some (mkdatetime yr (3 * qn - 2) 1 0 0 0 0,
              mkdatetime yr (3 * qn) (_days_in_month yr (3 * qn)) 23 59 59 0)).
Proof.
  intros Hk Hm Hq. apply keyword_free_spec in Hk as (H1 & H2 & H3 & H4 & H5 & H6).
  pose proof (quarter_range _ _ _ Hq) as [Rq Ry].
  unfold resolve_date_window_from_query. cbv zeta.
  rewrite H1, H2, H3, H4, H5, H6, Hm, Hq.
  rewrite quarter_bounds_exact by lia. reflexivity.
Qed.

Lemma quarter_window_witness :
  resolve_date_window_from_query "Revenue in Q4/2024" wednesday_afternoon
  = Ok (Some (mkdatetime 2024 (3 * 4 - 2) 1 0 0 0 0,
              mkdatetime 2024 (3 * 4) (_days_in_month 2024 (3 * 4)) 23 59 59 0)).
Proof.
  apply (quarter_window "Revenue in Q4/2024" wednesday_afternoon 4 2024);
    vm_compute; reflexivity.
Defined.

(** X3: for a valid [now] after January of year 1, a query whose first matching
    keyword is "last month" gets the whole calendar month before [now]'s month
    (December of the previous year in January), from its 1st at 00:00:00 to its
    last day at 23:59:59. *)
Theorem last_month_window (q : string) (now : datetime) (py pm : Z) :
  wf now = true -> (1 < year now \/ 1 < month now) ->
  (py, pm) = (if month now =? 1 then (year now - 1, 12) else (year now, month now - 1)) ->
  contains (lit "today") (lower (list_ascii_of_string q)) = false ->
  contains (lit "yesterday") (lower (list_ascii_of_string q)) = false ->
  contains (lit "this week") (lower (list_ascii_of_string q)) = false ->
  contains (lit "last week") (lower (list_ascii_of_string q)) = false ->
  contains (lit "this month") (lower (list_ascii_of_string q)) = false ->
  contains (lit "last month") (lower (list_ascii_of_string q)) = true ->
  resolve_date_window_from_query q now
  = Ok (Some (mkdatetime py pm 1 0 0 0 0,
              mkdatetime py pm (_days_in_month py pm) 23 59 59 0)).
Proof.
  intros W Hlim Hp H1 H2 H3 H4 H5 H6.
  pose proof W as S. apply wf_spec in S. destruct S as (Hy & Hm & Hd & Hh & Hmi & Hs & Hus).
  unfold resolve_date_window_from_query. cbv zeta.
  rewrite H1, H2, H3, H4, H5, H6. unfold replace_date.
  assert (W1 : wf (mkdatetime (year now) (month now) 1 (hour now) (minute now) (second now)
                     (microsecond now)) = true).
  { pose proof (days_in_month_bounds (year now) (month now) Hm). apply wf_intro; simpl; lia. }
  rewrite (datetime_new_ok _ _ _ _ _ _ _ W1). simpl bind.
  assert (Hpp : 1 <= py <= 9999 /\ 1 <= pm <= 12 /\ (pm < 12 \/ py < 9999)
                /\ (if pm =? 12 then py + 1 else py) = year now
                /\ (if pm =? 12 then 1 else pm + 1) = month now).
  { destruct (Z.eqb_spec (month now) 1) as [E|E]; injection Hp as -> ->.
    - rewrite E. simpl. lia.
    - destruct (Z.eqb_spec (month now - 1) 12); [lia|]. lia. }
  destruct Hpp as (Ry & Rm & Rl & Ey & Em).
  unfold dt_sub. rewrite timedelta_days.
  replace (- (1 * US_PER_DAY)) with ((-1) * US_PER_DAY) by ring.
  pose proof (ymd2ord_pos py pm (_days_in_month py pm) ltac:(lia) Rm
                ltac:(pose proof (days_in_month_bounds py pm Rm); lia)) as Hpos.
  pose proof (next_month_first py pm Rm) as Hn. rewrite Ey, Em in Hn.
  destruct (shift_days _ (-1) W1) as (z & Ez & Wz & Oz & Kz).
  { unfold toordinal. simpl. pose proof (toordinal_max _ W1) as Mx.
    unfold toordinal in Mx. simpl in Mx. lia. }
  rewrite Ez. simpl bind.
  assert (Wp : wf (mkdatetime py pm (_days_in_month py pm) (hour now) (minute now)
                     (second now) (microsecond now)) = true).
  { pose proof (days_in_month_bounds py pm Rm). apply wf_intro; simpl; lia. }
  assert (Zeq : z = mkdatetime py pm (_days_in_month py pm) (hour now) (minute now)
                      (second now) (microsecond now)).
  { apply key_inj; [exact Wz | exact Wp |]. rewrite Kz. unfold key, toordinal. simpl.
    rewrite Hn. unfold US_PER_DAY. lia. }
  rewrite Zeq. unfold replace_time. simpl.
  rewrite (datetime_new_ok py pm (_days_in_month py pm) 0 0 0 0)
    by (pose proof (days_in_month_bounds py pm Rm); apply wf_intro; simpl; lia).
  simpl bind.
  rewrite month_bounds_exact.
  - reflexivity.
  - pose proof (days_in_month_bounds py pm Rm); apply wf_intro; simpl; lia.
  - simpl. lia.
Qed.

Lemma last_month_window_witness :
  resolve_date_window_from_query "what happened last month" (mkdatetime 2025 1 15 9 0 0 0)
  = Ok (Some (mkdatetime 2024 12 1 0 0 0 0,
              mkdatetime 2024 12 (_days_in_month 2024 12) 23 59 59 0)).
Proof.
  apply (last_month_window "what happened last month" (mkdatetime 2025 1 15 9 0 0 0) 2024 12);
    first [vm_compute; reflexivity | simpl; lia].
Defined.

(** X4: a query whose first matching keyword is "this month" gets the whole
    calendar month of a valid [now] (not in December 9999), from its 1st at
    00:00:00 to its last day at 23:59:59. *)
Theorem this_month_window (q : string) (now : datetime) :
  wf now = true -> (month now < 12 \/ year now < 9999) ->
  contains (lit "today") (lower (list_ascii_of_string q)) = false ->
  contains (lit "yesterday") (lower (list_ascii_of_string q)) = false ->
  contains (lit "this week") (lower (list_ascii_of_string q)) = false ->
  contains (lit "last week") (lower (list_ascii_of_string q)) = false ->
  contains (lit "this month") (lower (list_ascii_of_string q)) = true ->
  resolve_date_window_from_query q now
  = Ok (Some (mkdatetime (year now) (month now) 1 0 0 0 0,
              mkdatetime (year now) (month now) (_days_in_month (year now) (month now))
                23 59 59 0)).
Proof.
  intros W Hl H1 H2 H3 H4 H5. unfold resolve_date_window_from_query. cbv zeta.
  rewrite H1, H2, H3, H4, H5. rewrite month_bounds_exact by assumption. reflexivity.
Qed.

Lemma this_month_window_witness :
  resolve_date_window_from_query "budget this month" wednesday_afternoon
  = Ok (Some (mkdatetime 2025 10 1 0 0 0 0,
              mkdatetime 2025 10 (_days_in_month 2025 10) 23 59 59 0)).
Proof.
  apply (this_month_window "budget this month" wednesday_afternoon);
    first [vm_compute; reflexivity | simpl; lia].
Defined.

(** X5: "today" gives the calendar day of a valid [now] from 00:00:00 to
    23:59:59; otherwise "yesterday" gives the day before (the date whose ordinal
    is one less) over the same hours. *)
Theorem day_windows (q : string) (now : datetime) :
  wf now = true ->
  (contains (lit "today") (lower (list_ascii_of_string q)) = true ->
   resolve_date_window_from_query q now
   = Ok (Some (mkdatetime (year now) (month now) (day now) 0 0 0 0,
               mkdatetime (year now) (month now) (day now) 23 59 59 0)))
  /\
  (contains (lit "today") (lower (list_ascii_of_string q)) = false ->
   contains (lit "yesterday") (lower (list_ascii_of_string q)) = true ->
   2 <= toordinal now ->
   exists y m d, _ymd2ord y m d = toordinal now - 1
     /\ resolve_date_window_from_query q now
        = Ok (Some (mkdatetime y m d 0 0 0 0, mkdatetime y m d 23 59 59 0))).
Proof.
  intros W. unfold resolve_date_window_from_query. cbv zeta. split.
  - intros Ht. rewrite Ht. apply wf_spec in W. destruct W as (Hy & Hm & Hd & _).
    unfold day_window, replace_time.
    rewrite (datetime_new_ok (year now) (month now) (day now) 0 0 0 0)
      by (apply wf_intro; simpl; lia).
    simpl bind.
    rewrite (datetime_new_ok (year now) (month now) (day now) 23 59 59 0)
      by (apply wf_intro; simpl; lia).
    reflexivity.
  - intros Ht Hy H2. rewrite Ht, Hy. unfold dt_sub. rewrite timedelta_days.
    replace (- (1 * US_PER_DAY)) with ((-1) * US_PER_DAY) by ring.
    destruct (shift_days now (-1) W) as (z & Ez & Wz & Oz & _).
    { pose proof (toordinal_max now W). lia. }
    rewrite Ez. simpl bind. exists (year z), (month z), (day z). split; [exact Oz|].
    apply wf_spec in Wz. destruct Wz as (Zy & Zm & Zd & _).
    unfold day_window, replace_time.
    rewrite (datetime_new_ok (year z) (month z) (day z) 0 0 0 0)
      by (apply wf_intro; simpl; lia).
    simpl bind.
    rewrite (datetime_new_ok (year z) (month z) (day z) 23 59 59 0)
      by (apply wf_intro; simpl; lia).
    reflexivity.
Qed.

Lemma day_windows_witness :
  exists y m d, _ymd2ord y m d = toordinal wednesday_afternoon - 1
    /\ resolve_date_window_from_query "what did we decide yesterday" wednesday_afternoon
       = Ok (Some (mkdatetime y m d 0 0 0 0, mkdatetime y m d 23 59 59 0)).
Proof.
  apply (proj2 (day_windows "what did we decide yesterday" wednesday_afternoon
                  ltac:(vm_compute; reflexivity)));
    first [vm_compute; reflexivity | apply Z.leb_le; vm_compute; reflexivity].
Defined.

(** X6: [filter_by_date_range] is monotone in the window: for [s' <= s] and [e
    <= e'], filtering the hits kept for [[s, e]] again with [[s', e']] changes
    nothing, and filtering with the wider window first and then with [[s, e]]
    gives the same hits as filtering with [[s, e]] alone. *)
Theorem filter_window_widen (fi sp : list ascii -> result datetime) (l : list hit)
    (s e s' e' : datetime) :
  dt_le s' s = true -> dt_le e e' = true ->
  filter_by_date_range fi sp (filter_by_date_range fi sp l s e) s' e'
    = filter_by_date_range fi sp l s e
  /\ filter_by_date_range fi sp (filter_by_date_range fi sp l s' e') s e
    = filter_by_date_range fi sp l s e.
Proof.
  intros Hs He. rewrite !filter_by_date_range_filter. split.
  - induction l as [|h t IH]; simpl; [reflexivity|].
    destruct (keep_in_range fi sp s e (hit_meta h)) eqn:E; simpl; [|exact IH].
    rewrite (keep_widen fi sp s e s' e' _ Hs He E). rewrite IH. reflexivity.
  - induction l as [|h t IH]; simpl; [reflexivity|].
    destruct (keep_in_range fi sp s' e' (hit_meta h)) eqn:E'; simpl.
    + destruct (keep_in_range fi sp s e (hit_meta h)); rewrite IH; reflexivity.
    + destruct (keep_in_range fi sp s e (hit_meta h)) eqn:E; [|exact IH].
      rewrite (keep_widen fi sp s e s' e' _ Hs He E) in E'. discriminate.
Qed.

Lemma filter_window_widen_witness :
  filter_by_date_range fromisoformat_date fromisoformat_date
    (filter_by_date_range fromisoformat_date fromisoformat_date sample_hits
       (mkdatetime 2024 12 1 0 0 0 0) (mkdatetime 2025 2 28 23 59 59 0))
    (fst january_2025) (snd january_2025)
  = filter_by_date_range fromisoformat_date fromisoformat_date sample_hits
      (fst january_2025) (snd january_2025).
Proof.
  apply (proj2 (filter_window_widen fromisoformat_date fromisoformat_date sample_hits
                  (fst january_2025) (snd january_2025)
                  (mkdatetime 2024 12 1 0 0 0 0) (mkdatetime 2025 2 28 23 59 59 0)
                  ltac:(vm_compute; reflexivity) ltac:(vm_compute; reflexivity))).
Defined.

(** X7: with a reversed window ([start] after [end]) no hit is kept through its
    meeting date; every kept hit is an input hit whose [valid_from] parses to a
    date at most [end] and whose [valid_to] (or [datetime.max]) is at least
    [start]. *)
Theorem filter_reversed_window (fi sp : list ascii -> result datetime) (l : list hit)
    (s e : datetime) (h : hit) :
  dt_le s e = false ->
  In h (filter_by_date_range fi sp l s e) ->
  In h l
  /\ exists vf, _parse_iso fi sp (m_valid_from (hit_meta h)) = Some vf /\ dt_le vf e = true
       /\ dt_le s (match _parse_iso fi sp (m_valid_to (hit_meta h)) with
                   | Some vt => vt | None => datetime_max end) = true.
Proof.
  intros Hr Hin. apply in_filter_by_date_range in Hin as [Hl Hk].
  split; [exact Hl|]. apply keep_reversed; assumption.
Qed.

Lemma filter_reversed_window_witness :
  In (9, 1 # 2, reminder_open)
     (filter_by_date_range fromisoformat_date fromisoformat_date sample_hits
        (mkdatetime 2025 2 1 0 0 0 0) (mkdatetime 2025 1 31 23 59 59 0))
  /\ In (9, 1 # 2, reminder_open) sample_hits
  /\ exists vf, _parse_iso fromisoformat_date fromisoformat_date
                 (m_valid_from (hit_meta (9, 1 # 2, reminder_open))) = Some vf
       /\ dt_le vf (mkdatetime 2025 1 31 23 59 59 0) = true
       /\ dt_le (mkdatetime 2025 2 1 0 0 0 0)
            (match _parse_iso fromisoformat_date fromisoformat_date
                     (m_valid_to (hit_meta (9, 1 # 2, reminder_open))) with
             | Some vt => vt | None => datetime_max end) = true.
Proof.
  split; [vm_compute; left; reflexivity|].
  apply (filter_reversed_window fromisoformat_date fromisoformat_date sample_hits
           (mkdatetime 2025 2 1 0 0 0 0) (mkdatetime 2025 1 31 23 59 59 0)
           (9, 1 # 2, reminder_open));
    [vm_compute; reflexivity | vm_compute; left; reflexivity].
Defined.

Section EntryPoints.
Variable fi sp : list ascii -> result datetime.
Variable now : datetime.
Variable metric : string.
Variable Index Vec : Type.
Variable load_resources : result (Index * (Z -> option meta)).
Variable embed_query : string -> result Vec.
Variable index_search : Index -> Vec -> Z -> list (Q * Z).

(** X8: every hit [search] returns has an id other than -1, comes from a [(dist,
    id)] pair of the index's answer for [max(k, 100)] neighbours, and carries
    the metadata stored for its id, or the empty record when there is none. *)
Theorem search_hits (query : string) (k : Z) (index : Index) (md : Z -> option meta)
    (v : Vec) (l : list hit) :
  load_resources = Ok (index, md) -> embed_query query = Ok v ->
  search Index Vec load_resources embed_query index_search query k = Ok l ->
  Forall (fun h : hit => let '(i, d, m) := h in
            i <> -1 /\ In (d, i) (index_search index v (Z.max k 100))
            /\ m = match md i with Some m => m | None => empty_meta end) l.
Proof.
  intros Hl He Hs. rewrite (search_unfold _ _ _ _ index_search query k index md v Hl He) in Hs.
  injection Hs as <-. apply Forall_forall. intros [[i d] m] Hin.
  apply py_prefix_in in Hin. apply in_flat_map in Hin as [[d' i'] [Hp Hh]].
  unfold hit_of in Hh. destruct (i' =? -1) eqn:E; [destruct Hh|].
  destruct Hh as [Hh|[]]. injection Hh as <- <- <-.
  apply Z.eqb_neq in E. auto.
Qed.

(** X9: with [n] the number of index results whose id is not -1, [search]
    returns [min(k, n)] hits for [k >= 0], and for a negative [k] (Python
    slicing) all but the last [-k] of them: [max(0, n + k)]. *)
Theorem search_length (query : string) (k : Z) (index : Index) (md : Z -> option meta)
    (v : Vec) (l : list hit) :
  load_resources = Ok (index, md) -> embed_query query = Ok v ->
  search Index Vec load_resources embed_query index_search query k = Ok l ->
  let n := Z.of_nat (List.length (filter (fun p => negb (snd p =? -1))
                                     (index_search index v (Z.max k 100)))) in
  (0 <= k -> Z.of_nat (List.length l) = Z.min k n)
  /\ (k < 0 -> Z.of_nat (List.length l) = Z.max 0 (n + k)).
Proof.
  intros Hl He Hs n. rewrite (search_unfold _ _ _ _ index_search query k index md v Hl He) in Hs.
  injection Hs as <-. split; intros Hk.
  - rewrite py_prefix_length_min by exact Hk. rewrite length_hits. reflexivity.
  - rewrite py_prefix_length_neg by exact Hk. rewrite length_hits. reflexivity.
Qed.

(** X10: every hit of [search_in_date_window] is in the pool [search(query,
    max(k, 200))] and passes the date-range filter of the window; for [k >= 0]
    it returns [min(k, w)] hits, [w] being the number of pool hits the filter
    keeps. *)
Theorem window_hits_from_pool (query : string) (s e : datetime) (k : Z)
    (pool l : list hit) :
  search Index Vec load_resources embed_query index_search query (Z.max k 200) = Ok pool ->
  search_in_date_window fi sp now metric Index Vec load_resources embed_query index_search
    query s e k = Ok l ->
  (forall h, In h l -> In h pool /\ keep_in_range fi sp s e (hit_meta h) = true)
  /\ (0 <= k -> Z.of_nat (List.length l)
                = Z.min k (Z.of_nat (List.length (filter_by_date_range fi sp pool s e)))).
Proof.
  intros Hp H. unfold search_in_date_window in H. rewrite Hp in H. simpl in H.
  destruct (filter_by_date_range fi sp pool s e) as [|w ws] eqn:Ew.
  - injection H as <-. split; [intros h []|]. intros Hk. simpl. lia.
  - inv_bind H. injection H as <-. unfold rerank_for_recency in Ha.
    pose proof (rerank_perm _ _ _ _ _ _ _ _ _ Ha) as P. split.
    + intros h Hin. apply py_prefix_in in Hin.
      apply (Permutation_in _ P) in Hin. rewrite <- Ew in Hin.
      apply in_filter_by_date_range in Hin. exact Hin.
    + intros Hk. rewrite py_prefix_length_min by exact Hk.
      rewrite (Permutation_length P). reflexivity.
Qed.

(** X11: every hit of [search_meetings] is in the pool [search(query, max(k,
    50))], and for [k >= 0] it returns [min(k, p)] hits, [p] being the size of
    the pool. *)
Theorem meetings_hits_from_pool (query : string) (k : Z) (pool l : list hit) :
  search Index Vec load_resources embed_query index_search query (Z.max k 50) = Ok pool ->
  search_meetings fi sp now metric Index Vec load_resources embed_query index_search
    query k = Ok l ->
  (forall h, In h l -> In h pool)
  /\ (0 <= k -> Z.of_nat (List.length l) = Z.min k (Z.of_nat (List.length pool))).
Proof.
  intros Hp H. unfold search_meetings in H. rewrite Hp in H. simpl in H.
  inv_bind H. injection H as <-.
  pose proof (rerank_perm _ _ _ _ _ _ _ _ _ Ha) as P. split.
  - intros h Hin. apply py_prefix_in in Hin. exact (Permutation_in _ P Hin).
  - intros Hk. rewrite py_prefix_length_min by exact Hk.
    rewrite (Permutation_length P). reflexivity.
Qed.

End EntryPoints.

Lemma search_hits_witness :
  search unit unit sample_load sample_embed sample_index_search "budget" 3
  = Ok [(7, 3 # 4, meeting_2025); (5, 3 # 4, empty_meta); (3, 1 # 2, reminder_no_start)]
  /\ Forall (fun h : hit => let '(i, d, m) := h in
              i <> -1 /\ In (d, i) (sample_index_search tt tt (Z.max 3 100))
              /\ m = match sample_metadata i with Some m => m | None => empty_meta end)
       [(7, 3 # 4, meeting_2025); (5, 3 # 4, empty_meta); (3, 1 # 2, reminder_no_start)].
Proof.
  split; [vm_compute; reflexivity|].
  apply (search_hits unit unit sample_load sample_embed sample_index_search "budget" 3
           tt sample_metadata tt); vm_compute; reflexivity.
Defined.

Lemma search_length_witness :
  search unit unit sample_load sample_embed sample_index_search "budget" (-2)
  = Ok [(7, 3 # 4, meeting_2025); (5, 3 # 4, empty_meta); (3, 1 # 2, reminder_no_start)]
  /\ Z.of_nat (List.length [(7, 3 # 4, meeting_2025); (5, 3 # 4, empty_meta);
                             (3, 1 # 2, reminder_no_start)])
     = Z.max 0 (Z.of_nat (List.length (filter (fun p => negb (snd p =? -1))
                                        (sample_index_search tt tt (Z.max (-2) 100)))) + -2).
Proof.
  split; [vm_compute; reflexivity|].
  apply (proj2 (search_length unit unit sample_load sample_embed sample_index_search
                  "budget" (-2) tt sample_metadata tt _ eq_refl eq_refl
                  ltac:(vm_compute; reflexivity))).
  lia.
Defined.

Lemma window_hits_from_pool_witness :
  search unit unit sample_load sample_embed sample_index_search "budget" (Z.max 2 200)
  = Ok sample_hits
  /\ search_in_date_window fromisoformat_date fromisoformat_date wednesday_afternoon "ip"
       unit unit sample_load sample_embed sample_index_search "budget"
       (fst january_2025) (snd january_2025) 2
     = Ok [(7, 3 # 4, meeting_2025); (9, 1 # 2, reminder_open)]
  /\ forall h, In h [(7, 3 # 4, meeting_2025); (9, 1 # 2, reminder_open)] ->
       In h sample_hits
       /\ keep_in_range fromisoformat_date fromisoformat_date
            (fst january_2025) (snd january_2025) (hit_meta h) = true.
Proof.
  split; [vm_compute; reflexivity|]. split; [vm_compute; reflexivity|].
  apply (proj1 (window_hits_from_pool fromisoformat_date fromisoformat_date
                  wednesday_afternoon "ip" unit unit sample_load sample_embed
                  sample_index_search "budget" (fst january_2025) (snd january_2025) 2
                  sample_hits _ ltac:(vm_compute; reflexivity)
                  ltac:(vm_compute; reflexivity))).
Defined.

Lemma meetings_hits_from_pool_witness :
  search unit unit sample_load sample_embed sample_index_search "budget" (Z.max 2 50)
  = Ok sample_hits
  /\ search_meetings fromisoformat_date fromisoformat_date wednesday_afternoon "ip"
       unit unit sample_load sample_embed sample_index_search "budget" 2
     = Ok [(7, 3 # 4, meeting_2025); (3, 1 # 2, reminder_no_start)]
  /\ Z.of_nat (List.length [(7, 3 # 4, meeting_2025); (3, 1 # 2, reminder_no_start)])
     = Z.min 2 (Z.of_nat (List.length sample_hits)).
Proof.
  split; [vm_compute; reflexivity|]. split; [vm_compute; reflexivity|].
  apply (proj2 (meetings_hits_from_pool fromisoformat_date fromisoformat_date
                  wednesday_afternoon "ip" unit unit sample_load sample_embed
                  sample_index_search "budget" 2 sample_hits _
                  ltac:(vm_compute; reflexivity) ltac:(vm_compute; reflexivity))).
  lia.
Defined.

Section AnswerFacts.
Variable fi sp : list ascii -> result datetime.
Variable today now : datetime.
Variable metric : string.
Variable Index Vec : Type.
Variable load_resources : result (Index * (Z -> option meta)).
Variable embed_query : string -> result Vec.
Variable index_search : Index -> Vec -> Z -> list (Q * Z).
Variable _synth_answer : string -> list hit -> string.

(** X12: when the resolver finds a date window [(s, e)] in the question,
    [answer] does not depend on [restrict_to_meetings], and it returns the
    no-results message when [search_in_date_window] finds nothing in the window
    (there is no fallback to an unwindowed search). *)
Theorem answer_window_scope (question : string) (k : Z) (restrict restrict' use_rag : bool)
    (s e : datetime) :
  resolve_date_window_from_query question today = Ok (Some (s, e)) ->
  answer fi sp today now metric Index Vec load_resources embed_query index_search
    _synth_answer question k restrict use_rag
  = answer fi sp today now metric Index Vec load_resources embed_query index_search
      _synth_answer question k restrict' use_rag
  /\ (search_in_date_window fi sp now metric Index Vec load_resources embed_query
        index_search question s e k = Ok [] ->
      answer fi sp today now metric Index Vec load_resources embed_query index_search
        _synth_answer question k restrict use_rag = Ok NO_RESULTS).
Proof.
  intros Hw. unfold answer. rewrite Hw. simpl. split; [reflexivity|].
  intros He. rewrite He. reflexivity.
Qed.

(** X13: an exception of the date resolver propagates out of [answer] before any
    search; through the chat page's [_safe_answer] (also on its [TypeError]
    retry) it becomes the stub reply "(stub) You asked: " followed by the
    question. *)
Theorem answer_resolver_error (question : string) (k : Z) (restrict use_rag : bool)
    (err : pyexc) :
  resolve_date_window_from_query question today = Err err ->
  answer fi sp today now metric Index Vec load_resources embed_query index_search
    _synth_answer question k restrict use_rag = Err err
  /\ _safe_answer
       (Some (fun q k r => answer fi sp today now metric Index Vec load_resources embed_query
                             index_search _synth_answer q k r true))
       question k restrict = stub question.
Proof.
  intros Hr. unfold answer. rewrite Hr. simpl. split; [reflexivity|].
  unfold _safe_answer, answer. rewrite Hr. simpl.
  destruct err; reflexivity.
Qed.

End AnswerFacts.

Lemma answer_window_scope_witness :
  answer fromisoformat_date fromisoformat_date wednesday_afternoon wednesday_afternoon "ip"
    unit unit sample_load sample_embed sample_index_search (fun q _ => q)
    "from 2020-01-01 to 2020-01-31" 7 true true
  = Ok NO_RESULTS.
Proof.
  apply (proj2 (answer_window_scope fromisoformat_date fromisoformat_date
                  wednesday_afternoon wednesday_afternoon "ip" unit unit sample_load
                  sample_embed sample_index_search (fun q _ => q)
                  "from 2020-01-01 to 2020-01-31" 7 true false true
                  (mkdatetime 2020 1 1 0 0 0 0) (mkdatetime 2020 1 31 23 59 59 0)
                  ltac:(vm_compute; reflexivity))).
  vm_compute. reflexivity.
Defined.

Lemma answer_resolver_error_witness :
  answer fromisoformat_date fromisoformat_date wednesday_afternoon wednesday_afternoon "ip"
    unit unit sample_load sample_embed sample_index_search (fun q _ => q)
    "from 2025-13-01 to 2025-12-31" 7 false true = Err ValueError
  /\ _safe_answer
       (Some (fun q k r => answer fromisoformat_date fromisoformat_date wednesday_afternoon
                             wednesday_afternoon "ip" unit unit sample_load sample_embed
                             sample_index_search (fun q _ => q) q k r true))
       "from 2025-13-01 to 2025-12-31" 7 false
     = stub "from 2025-13-01 to 2025-12-31".
Proof.
  apply (answer_resolver_error fromisoformat_date fromisoformat_date wednesday_afternoon
           wednesday_afternoon "ip" unit unit sample_load sample_embed sample_index_search
           (fun q _ => q) "from 2025-13-01 to 2025-12-31" 7 false true ValueError).
  vm_compute. reflexivity.
Defined.

(** X14: with [prefer_recent], of two hits that differ only in their
    [meeting_date] (and id), both parsing, the one whose date has the larger
    ordinal gets the strictly larger score. *)
Theorem recency_orders_scores (fi sp : list ascii -> result datetime) (now : datetime)
    (metric : string) (qtags : list (list ascii)) (pm : bool) (rid rid' : Z) (dist : Q)
    (m : meta) (s1 s2 : string) (d1 d2 : datetime) (a b : Q) :
  _parse_iso fi sp (Some s1) = Some d1 -> _parse_iso fi sp (Some s2) = Some d2 ->
  toordinal d1 < toordinal d2 ->
  score_hit fi sp now metric qtags pm true (rid, dist, with_meeting_date m s1) = Ok a ->
  score_hit fi sp now metric qtags pm true (rid', dist, with_meeting_date m s2) = Ok b ->
  (a < b)%Q.
Proof.
  intros P1 P2 Hlt Ha Hb. unfold score_hit, with_meeting_date in Ha, Hb.
  cbv beta iota zeta delta [m_meeting_date m_folder m_tags m_valid_from m_valid_to] in Ha, Hb.
  rewrite P1 in Ha. rewrite P2 in Hb.
  assert (M : (inject_Z (toordinal d1) / inject_Z 365000
               < inject_Z (toordinal d2) / inject_Z 365000)%Q).
  { unfold Qdiv, Qmult, Qinv, Qlt, inject_Z. simpl. lia. }
  unfold tag_bonus, meta_tags, meta_folder, validity_bonus in Ha, Hb.
  cbv beta iota zeta delta [m_meeting_date m_folder m_tags m_valid_from m_valid_to] in Ha, Hb.
  destruct (String.eqb metric "l2");
  [destruct (Qeq_bool (1 + dist) 0); [discriminate|] |]; simpl bind in Ha, Hb;
  injection Ha as <-; injection Hb as <-; unfold meet_bonus; lra.
Qed.

Lemma recency_orders_scores_witness :
  (82500160 # 29200000 < 82512240 # 29200000)%Q.
Proof.
  apply (recency_orders_scores fromisoformat_date fromisoformat_date wednesday_afternoon "ip"
           (_query_tags "budget") false 7 8 (3 # 4) meeting_2025 "2025-01-01" "2025-06-01"
           (mkdatetime 2025 1 1 0 0 0 0) (mkdatetime 2025 6 1 0 0 0 0));
    vm_compute; reflexivity.
Defined.

(** X15: the tag bonus is non-negative and at most 0.05 times the number of
    distinct query tags, and at most 0.05 times the number of non-empty tags in
    the metadata. *)
Theorem tag_bonus_bounds (qtags : list (list ascii)) (m : meta) :
  (0 <= tag_bonus qtags m)%Q
  /\ (tag_bonus qtags m <= (1 # 20) * inject_Z (Z.of_nat (List.length (dedup qtags))))%Q
  /\ (tag_bonus qtags m <= (1 # 20) * inject_Z (Z.of_nat (List.length (meta_tags m))))%Q.
Proof.
  unfold tag_bonus, intersection_size.
  set (f := filter (fun t => mem t (meta_tags m)) (dedup qtags)).
  assert (L1 : (List.length f <= List.length (dedup qtags))%nat) by apply filter_length_le.
  assert (L2 : (List.length f <= List.length (meta_tags m))%nat).
  { apply NoDup_incl_length; [apply NoDup_filter, dedup_NoDup|].
    intros x Hx. apply filter_In in Hx as [_ Hx]. apply mem_In. exact Hx. }
  unfold Qle, Qmult, inject_Z. cbn [Qnum Qden]. lia.
Qed.

(** X16: every tag [_query_tags] extracts has at least 3 characters, all of them
    ASCII letters, digits or underscores, and none an upper-case letter. *)
Theorem query_tags_shape (query : string) (t : list ascii) :
  In t (_query_tags query) ->
  (3 <= List.length t)%nat
  /\ Forall (fun c => is_word_char c = true /\ is_upper c = false) t.
Proof.
  unfold _query_tags. intros H. apply filter_In in H as [Hin Hlen].
  split; [apply Nat.leb_le; exact Hlen|].
  apply (word_runs_chars (lower (list_ascii_of_string query)) [] ); [| constructor | exact Hin].
  unfold lower. apply Forall_forall. intros c Hc. apply in_map_iff in Hc as (c' & <- & _).
  apply is_upper_lower_char.
Qed.

Lemma query_tags_shape_witness :
  In (lit "budget") (_query_tags "Budget Q3 review!")
  /\ (3 <= List.length (lit "budget"))%nat
  /\ Forall (fun c => is_word_char c = true /\ is_upper c = false) (lit "budget").
Proof.
  split; [vm_compute; left; reflexivity|].
  apply (query_tags_shape "Budget Q3 review!" (lit "budget")).
  vm_compute. left. reflexivity.
Defined.

End Extras.

